(** * cooltools: the [call_compartments] command line entry point

    A shallow embedding of [cooltools/cli/call_compartments.py] and the
    properties of its track loader, track/bin merge, region resolution,
    analysis dispatch and output writer.

    The script is glue over pandas, bioframe, cooler and the in-repo
    modules [eigdecomp] and [cli.util].  The parts of pandas and bioframe
    whose semantics the properties depend on (column selection of
    [read_table], the left [merge], [unique], [isin], boolean masks,
    [parse_regions] on chromosome names) are modelled as executable
    functions in the modules [Pandas] and [Bioframe]; everything else the
    script calls is a field of the record [World] and is left arbitrary. *)

From Stdlib Require Import ZArith String Ascii List Lia.
From Stdlib Require Import Floats.SpecFloat.
From stdpp Require Import base option list strings gmap pretty.

Local Open Scope Z_scope.

(** ** Values, exceptions and the two monads *)

(** A column label of a DataFrame: pandas labels the columns of a file read
    with [header=None] by position and the others by name. *)
Inductive label :=
| LInt (i : Z)
| LStr (s : string).

Inductive dtype :=
| dt_str
| dt_int64
| dt_float64
| dt_object.

(** numpy's [float64] values are kept as IEEE-754 specification floats; no
    arithmetic is done on them by the script. *)
Abbreviation float64 := spec_float.

Inductive cell :=
| VStr (s : string)
| VInt (z : Z)
| VFloat (x : float64).

(** pandas marks a missing value by the float NaN. *)
Definition NaN : cell := VFloat S754_nan.

#[global] Instance label_eq_dec : EqDecision label.
Proof. solve_decision. Defined.
#[global] Instance dtype_eq_dec : EqDecision dtype.
Proof. solve_decision. Defined.
#[global] Instance float64_eq_dec : EqDecision float64.
Proof. solve_decision. Defined.
#[global] Instance cell_eq_dec : EqDecision cell.
Proof. solve_decision. Defined.

(** The exceptions that the script, click, pandas and bioframe raise. *)
Inductive exn :=
| BadParameter (msg : string)
| NotImplementedError (msg : string)
| ValueError (msg : string)
| KeyError (key : label)
| ParserError (msg : string)
| EmptyDataError
| OSError (msg : string).

Inductive result (A : Type) :=
| Ok (a : A)
| Raise (e : exn).
Arguments Ok {A} a.
Arguments Raise {A} e.

#[global] Instance result_ret : MRet result := fun A a => Ok a.
#[global] Instance result_bind : MBind result := fun A B f m =>
  match m with
  | Ok a => f a
  | Raise e => Raise e
  end.

(** [mapM] of the exception monad, with the first exception winning. *)
Fixpoint traverse {A B : Type} (f : A -> result B) (l : list A) : result (list B) :=
  match l with
  | [] => Ok []
  | x :: l' => y ← f x; ys ← traverse f l'; Ok (y :: ys)
  end.

(** A table: the column labels with their dtypes, and the rows. *)
Record DataFrame := mkDF {
  schema : list (label * dtype);
  rows : list (list cell)
}.

Definition columns (df : DataFrame) : list label := fst <$> schema df.

(** The tokenised content of a text file: its lines that are not comments,
    each split at the tabs. *)
Abbreviation Buf := (list (list string)).

(** ** Python built-ins *)
Module Py.

(** The characters that a Rocq string literal cannot hold. *)
Definition dq : string := String (ascii_of_nat 34) EmptyString.
Definition tab : string := String (ascii_of_nat 9) EmptyString.

(** [sep.join(l)] *)
Fixpoint join (sep : string) (l : list string) : string :=
  match l with
  | [] => EmptyString
  | [x] => x
  | x :: l' => x +:+ sep +:+ join sep l'
  end.

(** [l[i]] on a list: a negative index counts from the end; [None] stands
    for [IndexError]. *)
Definition index {A : Type} (l : list A) (i : Z) : option A :=
  let n := Z.of_nat (length l) in
  if bool_decide (0 <= i) then l !! Z.to_nat i
  else if bool_decide (- n <= i) then l !! Z.to_nat (n + i)
  else None.

(** [len(l)] *)
Definition len {A : Type} (l : list A) : Z := Z.of_nat (length l).

End Py.

(** ** The pandas operations the script uses *)
Module Pandas.

(** Position and dtype of the first column labelled [l]; a missing label
    is a [KeyError]. *)
Definition lookup_col (df : DataFrame) (l : label) : result (nat * dtype) :=
  match list_find (λ c, c.1 = l) (schema df) with
  | Some (i, c) => Ok (i, c.2)
  | None => Raise (KeyError l)
  end.

Definition col_pos (df : DataFrame) (l : label) : result nat :=
  p ← lookup_col df l; Ok p.1.

(** The cell of a row at a position; a row that is too short reads as
    missing there. *)
Definition field (row : list cell) (i : nat) : cell := default NaN (row !! i).

Definition pick (idx : list nat) (row : list cell) : list cell := field row <$> idx.

(** [len(df)] and [df.shape[1]] *)
Definition len (df : DataFrame) : Z := Py.len (rows df).
Definition shape1 (df : DataFrame) : Z := Py.len (schema df).

(** [df[l]]: the values of one column. *)
Definition getitem (df : DataFrame) (l : label) : result (list cell) :=
  i ← col_pos df l; Ok ((λ row, field row i) <$> rows df).

(** [df[[l1, ..., lk]]]: the sub-table of the listed columns. *)
Definition getitems (df : DataFrame) (ls : list label) : result DataFrame :=
  ps ← traverse (lookup_col df) ls;
  Ok {| schema := zip ls (snd <$> ps); rows := pick (fst <$> ps) <$> rows df |}.

(** [df[l] = values]: replaces the column when it exists and appends it
    otherwise. *)
Definition setitem (df : DataFrame) (l : label) (d : dtype) (vals : list cell) : DataFrame :=
  match list_find (λ c, c.1 = l) (schema df) with
  | Some (i, _) =>
      {| schema := <[i := (l, d)]> (schema df);
         rows := zip_with (λ row v, <[i := v]> row) (rows df) vals |}
  | None =>
      {| schema := schema df ++ [(l, d)];
         rows := zip_with (λ row v, row ++ [v]) (rows df) vals |}
  end.

(** [Series.unique()]: the distinct values in order of first appearance. *)
Fixpoint unique_from (seen l : list cell) : list cell :=
  match l with
  | [] => []
  | x :: l' =>
      if bool_decide (x ∈ seen) then unique_from seen l'
      else x :: unique_from (x :: seen) l'
  end.

Definition unique (l : list cell) : list cell := unique_from [] l.

(** [Series.isin(values)]: the boolean mask of membership. *)
Definition isin (vals values : list cell) : list bool :=
  (λ v, bool_decide (v ∈ values)) <$> vals.

(** [df[mask].reset_index(drop=True)]: the rows whose mask entry is set;
    the tables of this model carry no index. *)
Definition select_rows (df : DataFrame) (mask : list bool) : DataFrame :=
  {| schema := schema df;
     rows := fst <$> filter (λ p, p.2 = true) (zip (rows df) mask) |}.

(** [df.rename(columns=m)] for a dict [m] keyed by positions. *)
Definition rename (df : DataFrame) (m : gmap Z string) : DataFrame :=
  {| schema :=
       (λ c, match c.1 with
             | LInt i => match m !! i with Some s => (LStr s, c.2) | None => c end
             | LStr _ => c
             end) <$> schema df;
     rows := rows df |}.

(** *** [pd.merge(left, right, how="left", on=keys)] *)

(** A non-key column name present on both sides gets the side's suffix. *)
Definition suffixed (sfx : string) (clash : list label) (c : label * dtype) : label * dtype :=
  match c.1 with
  | LStr s => if bool_decide (c.1 ∈ clash) then (LStr (s +:+ sfx), c.2) else c
  | LInt _ => c
  end.

(** The rows a left row produces: one per right row with the same key, in
    the right table's order, or a single row padded with missing values
    when no right row has its key. *)
Definition join_row (lk rk extra : list nat) (right_rows : list (list cell))
    (lrow : list cell) : list (list cell) :=
  match filter (λ rrow, pick rk rrow = pick lk lrow) right_rows with
  | [] => [lrow ++ replicate (length extra) NaN]
  | ms => (λ rrow, lrow ++ pick extra rrow) <$> ms
  end.

Definition merge_left (left right : DataFrame) (on : list label) : result DataFrame :=
  lk ← traverse (col_pos left) on;
  rk ← traverse (col_pos right) on;
  let extra :=
    filter (λ p, p.2.1 ∉ on) (zip (seq 0 (length (schema right))) (schema right)) in
  let clash :=
    filter (λ l, (l ∉ on) ∧ (l ∈ ((λ p, p.2.1) <$> extra))) (columns left) in
  Ok {| schema := (suffixed "_x" clash <$> schema left)
                  ++ ((λ p, suffixed "_y" clash p.2) <$> extra);
        rows := rows left ≫= join_row lk rk (fst <$> extra) (rows right) |}.

(** *** [pd.read_table(buf, dtype=..., comment="#", **kwargs)] *)

Inductive header_arg :=
| header_None
| header_infer.

(** The keyword arguments the script builds: [header], [usecols] and,
    for a file without header, [names]. *)
Record read_kwargs := mk_kwargs {
  header : header_arg;
  usecols : list label;
  names : option (list string)
}.

(** numpy's conversions of a text field; [None] when the text is not a
    literal of the type. *)
Record converters := mk_converters {
  parse_int64 : string -> option Z;
  parse_float64 : string -> option float64
}.

Definition convert (cv : converters) (d : dtype) (s : string) : result cell :=
  match d with
  | dt_int64 =>
      match parse_int64 cv s with
      | Some z => Ok (VInt z)
      | None => Raise (ValueError "invalid literal for int64")
      end
  | dt_float64 =>
      match parse_float64 cv s with
      | Some x => Ok (VFloat x)
      | None => Raise (ValueError "could not convert string to float64")
      end
  | dt_str | dt_object => Ok (VStr s)
  end.

(** The dtype requested for a column; a column the dict does not name is
    left as text. *)
Definition col_dtype (dtypes : gmap string dtype) (l : label) : dtype :=
  match l with
  | LStr s => default dt_object (dtypes !! s)
  | LInt _ => dt_object
  end.

(** [usecols] is a set: a column is kept when its position or its name is
    listed, and the kept columns come in the order of the file.  Of
    several header fields with one name only the first answers to it. *)
Definition selected (usecols : list label) (hdr : list string) : list (nat * label) :=
  (λ p, (p.1, LStr p.2)) <$>
    filter (λ p, LInt (Z.of_nat p.1) ∈ usecols ∨ (LStr p.2 ∈ usecols ∧ p.2 ∉ take p.1 hdr))
           (zip (seq 0 (length hdr)) hdr).

(** The first entry of [usecols] that no column of the file answers to. *)
Definition answered (width : nat) (hdr : list string) (u : label) : bool :=
  match u with
  | LInt i => bool_decide (0 <= i < Z.of_nat width)
  | LStr s => bool_decide (s ∈ hdr)
  end.

Definition unmatched (usecols : list label) (width : nat) (hdr : list string) : option label :=
  snd <$> list_find (λ u, answered width hdr u = false) usecols.

Definition unmatched_error (u : label) : exn :=
  match u with
  | LInt _ => ParserError "Defining usecols with out-of-bounds indices is not allowed"
  | LStr _ => ValueError "Usecols do not match columns, columns expected but not found"
  end.

(** With [names] passed, the names go to the kept columns in order when
    there is one per kept column; when there are more, the names whose
    positions are listed in [usecols] are the ones used. *)
Definition assign_names (usecols : list label) (ns : list string) (kept : list nat)
  : result (list (nat * label)) :=
  if bool_decide (length ns = length kept) then Ok (zip kept (LStr <$> ns))
  else
    let ns' := snd <$> filter (λ p, LInt (Z.of_nat p.1) ∈ usecols)
                              (zip (seq 0 (length ns)) ns) in
    if bool_decide (length ns' = length kept) then Ok (zip kept (LStr <$> ns'))
    else Raise (ValueError "Number of passed names did not match number of header fields in the file").

(** One data line: a line with more fields than the table is wide is a
    parse error and a missing field reads as the empty text. *)
Definition parse_line (cv : converters) (dtypes : gmap string dtype) (width : nat)
    (sel : list (nat * label)) (line : list string) : result (list cell) :=
  if bool_decide (length line ≤ width)%nat then
    traverse (λ p, convert cv (col_dtype dtypes p.2) (default EmptyString (line !! p.1))) sel
  else Raise (ParserError "Error tokenizing data").

Definition parse_data (cv : converters) (dtypes : gmap string dtype) (width : nat)
    (sel : list (nat * label)) (data : Buf) : result DataFrame :=
  rs ← traverse (parse_line cv dtypes width sel) data;
  Ok {| schema := (λ p, (p.2, col_dtype dtypes p.2)) <$> sel; rows := rs |}.

Definition read_table (cv : converters) (buf : Buf) (dtypes : gmap string dtype)
    (kw : read_kwargs) : result DataFrame :=
  match buf with
  | [] => Raise EmptyDataError
  | first :: rest =>
      match header kw, names kw with
      | header_infer, None =>
          (* the first line is the header *)
          match unmatched (usecols kw) (length first) first with
          | Some u => Raise (unmatched_error u)
          | None => parse_data cv dtypes (length first) (selected (usecols kw) first) rest
          end
      | _, Some ns =>
          (* every line is data and the columns are called [ns] *)
          match unmatched (usecols kw) (length first) ns with
          | Some u => Raise (unmatched_error u)
          | None =>
              sel ← assign_names (usecols kw) ns
                      (filter (λ i, LInt (Z.of_nat i) ∈ usecols kw) (seq 0 (length first)));
              parse_data cv dtypes (length first) sel buf
          end
      | header_None, None =>
          (* every line is data and the columns are called by position *)
          match unmatched (usecols kw) (length first) [] with
          | Some u => Raise (unmatched_error u)
          | None =>
              parse_data cv dtypes (length first)
                ((λ i, (i, LInt (Z.of_nat i))) <$>
                   filter (λ i, LInt (Z.of_nat i) ∈ usecols kw) (seq 0 (length first)))
                buf
          end
      end
  end.

End Pandas.

(** ** The matrix file and bioframe *)

(** What the script reads of a cooler: the bin table and the chromosome
    sizes, in the file's order. *)
Record Cooler := mkCooler {
  bins : DataFrame;
  chromsizes : list (string * Z)
}.

Module Bioframe.

Definition chromsize (sizes : list (string * Z)) (chrom : string) : option Z :=
  (λ p, p.2.2) <$> list_find (λ p, p.1 = chrom) sizes.

(** A chromosome name stands for the whole chromosome, from 0 to its
    size; a name without a size is an error, and so is a value that is
    not text. *)
Definition parse_region (region_name : string -> Z -> Z -> string)
    (sizes : list (string * Z)) (c : cell) : result (list cell) :=
  match c with
  | VStr chrom =>
      match chromsize sizes chrom with
      | Some n => Ok [VStr chrom; VInt 0; VInt n; VStr (region_name chrom 0 n)]
      | None => Raise (ValueError ("Unknown sequence label: " +:+ chrom))
      end
  | _ => Raise (ValueError "Unknown region type")
  end.

Definition regions_schema : list (label * dtype) :=
  [(LStr "chrom", dt_str); (LStr "start", dt_int64); (LStr "end", dt_int64);
   (LStr "name", dt_str)].

(** [bioframe.parse_regions(names, chromsizes)] on a sequence of names. *)
Definition parse_regions_names (region_name : string -> Z -> Z -> string)
    (names : list cell) (sizes : list (string * Z)) : result DataFrame :=
  rs ← traverse (parse_region region_name sizes) names;
  Ok {| schema := regions_schema; rows := rs |}.

End Bioframe.

(** ** What the script calls and this development leaves arbitrary *)
Record World := mkWorld {
  (** [cooler.Cooler(cool_path)] *)
  cooler_Cooler : string -> result Cooler;
  (** [cli.util.sniff_for_header(path)]: the content of the file and the
      names of its header when it has one *)
  sniff_for_header : string -> result (Buf * option (list string));
  (** the text to number conversions of [read_table] *)
  numpy : Pandas.converters;
  (** [pd.read_csv(buf, sep="\t", header=None)] *)
  read_csv : Buf -> result DataFrame;
  (** [bioframe.parse_regions(df)] on a table *)
  parse_regions : DataFrame -> result DataFrame;
  (** the name [bioframe.parse_regions] gives a region by default *)
  region_name : string -> Z -> Z -> string;
  (** [eigdecomp.cooler_cis_eig], with [clip_percentile=99.9] and
      [sort_metric=None] *)
  cooler_cis_eig :
    Cooler -> DataFrame -> DataFrame -> Z -> option string -> result (DataFrame * DataFrame);
  (** [eigdecomp.cooler_trans_eig], with [partition=None] and
      [sort_metric=None] *)
  cooler_trans_eig :
    Cooler -> DataFrame -> Z -> option string -> result (DataFrame * DataFrame)
}.

(** The calls of the script that are observed: the two decompositions and
    the files written. *)
Inductive event :=
| ev_cis_eig (bins regions : DataFrame) (n_eigs : Z) (phasing_track_col : option string)
| ev_trans_eig (bins : DataFrame) (n_eigs : Z) (phasing_track_col : option string)
| ev_to_csv (table : DataFrame) (path sep : string) (index : bool)
| ev_to_bigwig (table : DataFrame) (sizes : list (string * Z)) (path value_field : string).

(** A run: the events so far and how it ended. *)
Record M (A : Type) := mkM {
  trace : list event;
  outcome : result A
}.
Arguments mkM {A} trace outcome.
Arguments trace {A} m.
Arguments outcome {A} m.

#[global] Instance M_ret : MRet M := fun A a => mkM [] (Ok a).
#[global] Instance M_bind : MBind M := fun A B f m =>
  match outcome m with
  | Ok a => mkM (trace m ++ trace (f a)) (outcome (f a))
  | Raise e => mkM (trace m) (Raise e)
  end.

Definition lift {A : Type} (r : result A) : M A := mkM [] r.
Definition emit (e : event) : M unit := mkM [e] (Ok tt).

(** ** The script *)

(** The column selector of [--reference-track]: a position or a name. *)
Inductive Col :=
| ColInt (i : Z)
| ColStr (s : string).

Inductive ContactType :=
| cis
| trans.

Definition contact_type_str (c : ContactType) : string :=
  match c with
  | cis => "cis"
  | trans => "trans"
  end.

Definition coords : list string := ["chrom"; "start"; "end"].

(** Lines 94-126: the track's value column and the keyword arguments of
    [read_table]. *)
Definition select_column (names : option (list string)) (col : Col)
  : result (string * Pandas.read_kwargs) :=
  match names with
  | None =>
      match col with
      | ColStr s =>
          Raise (BadParameter ("No header found. " +:+ "Cannot find " +:+ Py.dq +:+ s
                               +:+ Py.dq +:+ " column without a header."))
      | ColInt c =>
          let track_name := "ref" in
          Ok (track_name,
              Pandas.mk_kwargs Pandas.header_None
                [LInt 0; LInt 1; LInt 2; LInt c]
                (Some ["chrom"; "start"; "end"; track_name]))
      end
  | Some names =>
      col ← match col with
            | ColInt c =>
                match Py.index names c with
                | Some name => Ok name
                | None =>
                    Raise (BadParameter ("Column #" +:+ pretty c +:+ " not compatible with header "
                                         +:+ Py.dq +:+ Py.join "," names +:+ Py.dq +:+ "."))
                end
            | ColStr s =>
                if bool_decide (s ∉ names) then
                  Raise (BadParameter ("Column " +:+ Py.dq +:+ s +:+ Py.dq
                                       +:+ " not found in header "
                                       +:+ Py.dq +:+ Py.join "," names +:+ Py.dq))
                else Ok s
            end;
      let track_name := col in
      Ok (track_name,
          Pandas.mk_kwargs Pandas.header_infer
            (LStr <$> ["chrom"; "start"; "end"; track_name]) None)
  end.

(** Lines 130-135: the dtype dict; as in a Python dict display a later key
    replaces an equal earlier one. *)
Definition dtype_arg (track_name : string) : gmap string dtype :=
  <[track_name := dt_float64]>
    (<["end" := dt_int64]> (<["start" := dt_int64]> (<["chrom" := dt_str]> ∅))).

(** An exception object that is built and dropped: without [raise] the
    statement does nothing. *)
Definition not_raised (e : exn) : result unit := Ok tt.

Section Script.

Variable W : World.

(** Lines 92-139: the reference track as a table.  The [verbose] flag only
    makes pandas print what it does and is not passed on here. *)
Definition read_track (buf : Buf) (names : option (list string)) (col : Col)
  : result (DataFrame * string) :=
  '(track_name, kwargs) ← select_column names col;
  track_df ← Pandas.read_table (numpy W) buf (dtype_arg track_name) kwargs;
  Ok (track_df, track_name).

(** Lines 151-155: the check of the merged table against the bins. *)
Definition merge_check (clr : Cooler) (cool_path track_path : string) (track : DataFrame)
  : result unit :=
  if bool_decide (Pandas.len track > Pandas.len (bins clr)) then
    not_raised (ValueError (("There is something in the " +:+ track_path +:+ " that ")
                            +:+ ("couldn't be merged with cooler-bins " +:+ cool_path)))
  else Ok tt.

(** Lines 87-159: the bin table with the track's values, and the name of
    the value column. *)
Definition track_phase (clr : Cooler) (cool_path : string)
    (reference_track : option (string * Col)) : result (DataFrame * option string) :=
  match reference_track with
  | Some (track_path, col) =>
      '(buf, names) ← sniff_for_header W track_path;
      '(track_df, track_name) ← read_track buf names col;
      track ← Pandas.merge_left (bins clr) track_df (LStr <$> coords);
      _ ← merge_check clr cool_path track_path track;
      Ok (track, Some track_name)
  | None =>
      track ← Pandas.getitems (bins clr) (LStr <$> coords);
      Ok (track, None)
  end.

(** Lines 165-167: the whole chromosomes of the track. *)
Definition default_regions (clr : Cooler) (track : DataFrame) : result DataFrame :=
  chroms ← Pandas.getitem track (LStr "chrom");
  let track_chroms := Pandas.unique chroms in
  cis_regions_table ← Bioframe.parse_regions_names (region_name W) track_chroms (chromsizes clr);
  p ← Pandas.lookup_col cis_regions_table (LStr "chrom");
  chrom ← Pandas.getitem cis_regions_table (LStr "chrom");
  Ok (Pandas.setitem cis_regions_table (LStr "name") p.2 chrom).

(** Lines 174-195: the regions of a BED file. *)
Definition custom_regions (regions : string) (track : DataFrame) : result DataFrame :=
  '(regions_buf, names) ← sniff_for_header W regions;
  cis_regions_table ← read_csv W regions_buf;
  if bool_decide (Pandas.shape1 cis_regions_table ∉ [3; 4]) then
    Raise (ValueError ("The region file does not have three or four tab-delimited columns."
                       +:+ "We expect a bed file with columns chrom, start, end, and optional name"))
  else
    cis_regions_table ←
      (if bool_decide (Pandas.shape1 cis_regions_table = 4) then
         parse_regions W
           (Pandas.rename cis_regions_table
              (<[3 := "name"]> (<[2 := "end"]> (<[1 := "start"]> (<[0 := "chrom"]> ∅)))))
       else
         parse_regions W
           (Pandas.rename cis_regions_table
              (<[2 := "end"]> (<[1 := "start"]> (<[0 := "chrom"]> ∅)))));
    chroms ← Pandas.getitem track (LStr "chrom");
    let track_chroms := Pandas.unique chroms in
    chrom ← Pandas.getitem cis_regions_table (LStr "chrom");
    Ok (Pandas.select_rows cis_regions_table (Pandas.isin chrom track_chroms)).

(** Lines 163-195. *)
Definition regions_phase (clr : Cooler) (track : DataFrame) (regions : option string)
    (contact_type : ContactType) : result DataFrame :=
  match regions with
  | None => default_regions clr track
  | Some regions =>
      match contact_type with
      | trans => Raise (NotImplementedError "Regions not yet supported with trans contact type")
      | cis => custom_regions regions track
      end
  end.

(** Lines 198-216. *)
Definition dispatch (clr : Cooler) (track cis_regions_table : DataFrame)
    (contact_type : ContactType) (n_eigs : Z) (track_name : option string)
  : M (DataFrame * DataFrame) :=
  match contact_type with
  | cis =>
      mkM [ev_cis_eig track cis_regions_table n_eigs track_name]
          (cooler_cis_eig W clr track cis_regions_table n_eigs track_name)
  | trans =>
      mkM [ev_trans_eig track n_eigs track_name]
          (cooler_trans_eig W clr track n_eigs track_name)
  end.

(** Lines 219-229.  The three writes are recorded as events; a failure of
    a writer itself (a path that cannot be written, an eigenvector table
    without [E1]) is not modelled. *)
Definition output (clr : Cooler) (eigvals eigvec_table : DataFrame) (out_prefix : string)
    (contact_type : ContactType) (bigwig : bool) : M unit :=
  let stem := (out_prefix +:+ ".") +:+ contact_type_str contact_type in
  _ ← emit (ev_to_csv eigvals (stem +:+ ".lam.txt") Py.tab false);
  _ ← emit (ev_to_csv eigvec_table (stem +:+ ".vecs.tsv") Py.tab false);
  if bigwig then emit (ev_to_bigwig eigvec_table (chromsizes clr) (stem +:+ ".bw") "E1")
  else mret tt.

(** What follows the track phase. *)
Definition analyse (clr : Cooler) (track : DataFrame) (track_name : option string)
    (regions : option string) (contact_type : ContactType) (n_eigs : Z)
    (out_prefix : string) (bigwig : bool) : M unit :=
  cis_regions_table ← lift (regions_phase clr track regions contact_type);
  '(eigvals, eigvec_table) ←
    dispatch clr track cis_regions_table contact_type n_eigs track_name;
  output clr eigvals eigvec_table out_prefix contact_type bigwig.

Definition call_compartments (cool_path : string) (reference_track : option (string * Col))
    (regions : option string) (contact_type : ContactType) (n_eigs : Z) (verbose : bool)
    (out_prefix : string) (bigwig : bool) : M unit :=
  clr ← lift (cooler_Cooler W cool_path);
  '(track, track_name) ← lift (track_phase clr cool_path reference_track);
  analyse clr track track_name regions contact_type n_eigs out_prefix bigwig.

End Script.

(** ** A small world to run the script in *)
Module Example.

(** Decimal literals stand in for numpy's conversions. *)
Definition digit (a : ascii) : option Z :=
  let n := Z.of_nat (nat_of_ascii a) in
  if bool_decide (48 <= n <= 57) then Some (n - 48) else None.

Fixpoint digits (acc : Z) (s : string) : option Z :=
  match s with
  | EmptyString => Some acc
  | String a s' => d ← digit a; digits (10 * acc + d) s'
  end.

Definition int_literal (s : string) : option Z :=
  match s with
  | EmptyString => None
  | String "-"%char s' =>
      match s' with
      | EmptyString => None
      | _ => Z.opp <$> digits 0 s'
      end
  | _ => digits 0 s
  end.

Definition float_literal (s : string) : option float64 :=
  (λ z, binary_normalize 53 1024 z 0 false) <$> int_literal s.

Definition cv : Pandas.converters := Pandas.mk_converters int_literal float_literal.

Definition bins_schema : list (label * dtype) :=
  [(LStr "chrom", dt_str); (LStr "start", dt_int64); (LStr "end", dt_int64)].

(** A matrix of three bins on two chromosomes. *)
Definition clr : Cooler :=
  {| bins := {| schema := bins_schema;
                rows := [[VStr "chr1"; VInt 0; VInt 10];
                         [VStr "chr1"; VInt 10; VInt 20];
                         [VStr "chr2"; VInt 0; VInt 10]] |};
     chromsizes := [("chr1", 20); ("chr2", 10)] |}.

Definition track_header : list string := ["chrom"; "start"; "end"; "E1"].

(** A track with a header and one value per bin. *)
Definition track_tsv : Buf :=
  [track_header;
   ["chr1"; "0"; "10"; "1"];
   ["chr1"; "10"; "20"; "2"];
   ["chr2"; "0"; "10"; "3"]].

(** A track that gives the first bin two values. *)
Definition dup_tsv : Buf :=
  [track_header;
   ["chr1"; "0"; "10"; "1"];
   ["chr1"; "0"; "10"; "2"]].

(** A track without header. *)
Definition nohdr_tsv : Buf :=
  [["chr1"; "0"; "10"; "1"];
   ["chr1"; "10"; "20"; "2"];
   ["chr2"; "0"; "10"; "3"]].

(** Regions on a chromosome of the matrix and on one that it lacks. *)
Definition regions_bed : Buf :=
  [["chr1"; "0"; "10"];
   ["chr3"; "0"; "5"]].

(** A file of two columns. *)
Definition pairs_bed : Buf :=
  [["chr1"; "0"]].

Definition sniff (path : string) : result (Buf * option (list string)) :=
  if bool_decide (path = "track.tsv") then Ok (track_tsv, Some track_header)
  else if bool_decide (path = "dup.tsv") then Ok (dup_tsv, Some track_header)
  else if bool_decide (path = "nohdr.tsv") then Ok (nohdr_tsv, None)
  else if bool_decide (path = "regions.bed") then Ok (regions_bed, None)
  else if bool_decide (path = "pairs.bed") then Ok (pairs_bed, None)
  else Raise (OSError "No such file or directory").

Definition open_cooler (path : string) : result Cooler :=
  if bool_decide (path = "matrix.cool") then Ok clr
  else Raise (OSError "No such file or directory").

(** Every field read as text, the columns labelled by position. *)
Definition read_csv (buf : Buf) : result DataFrame :=
  match buf with
  | [] => Raise EmptyDataError
  | first :: _ =>
      Ok {| schema := (λ i, (LInt (Z.of_nat i), dt_object)) <$> seq 0 (length first);
            rows := (λ line : list string, VStr <$> line) <$> buf |}
  end.

Definition region_name (chrom : string) (s e : Z) : string :=
  chrom +:+ ":" +:+ pretty s +:+ "-" +:+ pretty e.

(** A table of regions is kept as it is, named by chromosome when it
    brings no names. *)
Definition parse_regions (df : DataFrame) : result DataFrame :=
  chrom ← Pandas.getitem df (LStr "chrom");
  match Pandas.lookup_col df (LStr "name") with
  | Ok _ => Ok df
  | Raise _ => Ok (Pandas.setitem df (LStr "name") dt_str chrom)
  end.

Definition eigvals : DataFrame :=
  {| schema := [(LStr "eigval1", dt_float64)]; rows := [[VFloat (S754_zero false)]] |}.

Definition world : World :=
  mkWorld open_cooler sniff cv read_csv parse_regions region_name
    (λ _ track _ _ _, Ok (eigvals, track))
    (λ _ track _ _, Ok (eigvals, track)).

(** The track that gives the first bin two values, as loaded and as merged
    with the bins. *)
Definition dup_track_df : DataFrame :=
  Eval vm_compute in
    match read_track world dup_tsv (Some track_header) (ColStr "E1") with
    | Ok (df, _) => df
    | Raise _ => mkDF [] []
    end.

Definition dup_merged : DataFrame :=
  Eval vm_compute in
    match Pandas.merge_left (bins clr) dup_track_df (LStr <$> coords) with
    | Ok df => df
    | Raise _ => mkDF [] []
    end.

End Example.

(** ** Vocabulary of the properties *)

(** The errors pandas itself raises while reading a table. *)
Definition pandas_error (e : exn) : Prop :=
  match e with
  | ValueError _ | ParserError _ | EmptyDataError => True
  | _ => False
  end.

(** A selector that does not fit a header: a name the header lacks, or a
    position that Python's indexing of the header rejects. *)
Definition selector_rejected (hdr : list string) (col : Col) : Prop :=
  match col with
  | ColStr s => s ∉ hdr
  | ColInt c => ~ (- Py.len hdr <= c < Py.len hdr)
  end.

(** The keyword arguments for a file with header. *)
Definition header_kwargs (track_name : string) : Pandas.read_kwargs :=
  Pandas.mk_kwargs Pandas.header_infer (LStr <$> ["chrom"; "start"; "end"; track_name]) None.

(** The keyword arguments for a file without header. *)
Definition headerless_kwargs (c : Z) : Pandas.read_kwargs :=
  Pandas.mk_kwargs Pandas.header_None [LInt 0; LInt 1; LInt 2; LInt c]
    (Some ["chrom"; "start"; "end"; "ref"]).

(** The three coordinate columns and the value column, with their types. *)
Definition track_schema (track_name : string) : list (label * dtype) :=
  [(LStr "chrom", dt_str); (LStr "start", dt_int64); (LStr "end", dt_int64);
   (LStr track_name, dt_float64)].

Definition has_dtype (c : cell) (d : dtype) : Prop :=
  match d, c with
  | dt_str, VStr _ => True
  | dt_int64, VInt _ => True
  | dt_float64, VFloat _ => True
  | dt_object, _ => True
  | _, _ => False
  end.

(** Every row has one cell per column, of the column's type. *)
Definition well_typed (df : DataFrame) : Prop :=
  Forall (fun row => Forall2 (fun c col => has_dtype c col.2) row (schema df)) (rows df).

(** The table has the four typed columns of a track, in some order. *)
Definition four_typed_columns (df : DataFrame) (track_name : string) : Prop :=
  schema df ≡ₚ track_schema track_name /\ well_typed df.

(** The value column is none of the coordinate columns: by name under a
    header, by position without. *)
Definition value_off_coords (names : option (list string)) (col : Col)
    (track_name : string) : Prop :=
  match names with
  | None => match col with ColInt c => 3 <= c | ColStr _ => False end
  | Some _ => track_name ∉ coords
  end.

(** The event of the analysis dispatch. *)
Definition dispatch_event (contact_type : ContactType) (track cis_regions_table : DataFrame)
    (n_eigs : Z) (track_name : option string) : event :=
  match contact_type with
  | cis => ev_cis_eig track cis_regions_table n_eigs track_name
  | trans => ev_trans_eig track n_eigs track_name
  end.

(** A run that ends in [NotImplementedError]. *)
Definition raises_not_implemented (run : M unit) : Prop :=
  exists msg, outcome run = Raise (NotImplementedError msg).

(** A row of the regions table that is a whole chromosome named after
    itself: from 0 to the size the matrix gives the chromosome. *)
Definition whole_chromosome (sizes : list (string * Z)) (row : list cell) (chrom : string)
  : Prop :=
  exists n, Bioframe.chromsize sizes chrom = Some n
            /\ row = [VStr chrom; VInt 0; VInt n; VStr chrom].

(** The events that write a file. *)
Definition is_write (ev : event) : Prop :=
  match ev with
  | ev_to_csv _ _ _ _ | ev_to_bigwig _ _ _ _ => True
  | _ => False
  end.

(** The three events that write the results of a run. *)
Definition output_events (clr : Cooler) (eigvals eigvec_table : DataFrame)
    (out_prefix : string) (contact_type : ContactType) (bigwig : bool) : list event :=
  [ev_to_csv eigvals
     (((out_prefix +:+ ".") +:+ contact_type_str contact_type) +:+ ".lam.txt") Py.tab false;
   ev_to_csv eigvec_table
     (((out_prefix +:+ ".") +:+ contact_type_str contact_type) +:+ ".vecs.tsv") Py.tab false]
  ++ (if bigwig then
        [ev_to_bigwig eigvec_table (chromsizes clr)
           (((out_prefix +:+ ".") +:+ contact_type_str contact_type) +:+ ".bw") "E1"]
      else []).

(** The names the script gives the columns of a regions file, by its
    number of columns. *)
Definition bed_columns (width : Z) : gmap Z string :=
  if bool_decide (width = 4) then
    <[3 := "name"]> (<[2 := "end"]> (<[1 := "start"]> (<[0 := "chrom"]> ∅)))
  else <[2 := "end"]> (<[1 := "start"]> (<[0 := "chrom"]> ∅)).

(** Every row has one cell per column. *)
Definition rectangular (df : DataFrame) : Prop :=
  Forall (fun row => length row = length (schema df)) (rows df).


(** A line of a track without header parses: it has no more fields than
    the first line, its second and third fields are integers and its field
    at position [c] is a float. *)
Definition line_parses (cv : Pandas.converters) (width c : nat) (line : list string) : Prop :=
  (length line <= width)%nat /\
  is_Some (Pandas.parse_int64 cv (default EmptyString (line !! 1%nat))) /\
  is_Some (Pandas.parse_int64 cv (default EmptyString (line !! 2%nat))) /\
  is_Some (Pandas.parse_float64 cv (default EmptyString (line !! c))).

(** * Properties *)

(** ** The exception monad *)

Lemma bind_Ok {A B : Type} (m : result A) (f : A -> result B) (b : B) :
  mbind f m = Ok b -> exists a, m = Ok a /\ f a = Ok b.
Proof. destruct m as [a|e]; simpl; [eauto | discriminate]. Qed.

Lemma bind_Raise {A B : Type} (m : result A) (f : A -> result B) (e : exn) :
  mbind f m = Raise e -> m = Raise e \/ exists a, m = Ok a /\ f a = Raise e.
Proof. destruct m as [a|e']; simpl; [eauto | intros [= ->]; auto]. Qed.

Ltac inv_bind H :=
  let a := fresh "a" in
  let Ha := fresh "H" a in
  let H' := fresh in
  destruct (bind_Ok _ _ _ H) as (a & Ha & H'); clear H; rename H' into H.

Lemma Ok_bind {A B : Type} (a : A) (f : A -> result B) : mbind f (Ok a) = f a.
Proof. done. Qed.

Lemma traverse_Ok {A B : Type} (f : A -> result B) (l : list A) (ys : list B) :
  traverse f l = Ok ys -> Forall2 (fun x y => f x = Ok y) l ys.
Proof.
  revert ys; induction l as [|x l IH]; intros ys H; simpl in H.
  - injection H as <-. constructor.
  - inv_bind H. inv_bind H. injection H as <-. constructor; auto.
Qed.

Lemma traverse_Raise {A B : Type} (f : A -> result B) (l : list A) (e : exn) :
  traverse f l = Raise e -> exists x, x ∈ l /\ f x = Raise e.
Proof.
  induction l as [|x l IH]; simpl; [discriminate|].
  intros H. apply bind_Raise in H as [H | (y & Hy & H)].
  - exists x. split; [left | done].
  - apply bind_Raise in H as [H | (ys & Hys & H)]; [|discriminate].
    destruct (IH H) as (x' & Hin & Hx'). exists x'. split; [by right | done].
Qed.

Lemma traverse_all_Ok {A B : Type} (f : A -> result B) (l : list A) :
  (forall x, x ∈ l -> exists y, f x = Ok y) -> exists ys, traverse f l = Ok ys.
Proof.
  induction l as [|x l IH]; intros H; simpl; [eauto|].
  destruct (H x) as [y Hy]; [left|]. rewrite Hy. simpl.
  destruct IH as [ys Hys]; [intros; apply H; by right|].
  rewrite Hys. simpl. eauto.
Qed.

(** ** Python indexing *)

Lemma index_nonneg {A : Type} (l : list A) (i : Z) :
  0 <= i -> Py.index l i = l !! Z.to_nat i.
Proof. intros H. unfold Py.index. by rewrite bool_decide_eq_true_2. Qed.

Lemma index_negative {A : Type} (l : list A) (i : Z) :
  - Py.len l <= i < 0 -> Py.index l i = l !! Z.to_nat (Py.len l + i).
Proof.
  intros [H1 H2]. unfold Py.index.
  rewrite bool_decide_eq_false_2 by lia. by rewrite bool_decide_eq_true_2.
Qed.

Lemma index_None {A : Type} (l : list A) (i : Z) :
  Py.index l i = None <-> ~ (- Py.len l <= i < Py.len l).
Proof.
  unfold Py.index, Py.len. repeat case_bool_decide.
  - rewrite lookup_ge_None. lia.
  - rewrite lookup_ge_None. lia.
  - split; [lia | done].
Qed.

Lemma index_Some_elem {A : Type} (l : list A) (i : Z) (x : A) :
  Py.index l i = Some x -> x ∈ l.
Proof.
  unfold Py.index. repeat case_bool_decide; try discriminate;
    intros Hx; apply list_elem_of_lookup; eauto.
Qed.

(** C10: with a header of n columns, a negative selector c with -n <= c < 0
    raises no parameter error and resolves to the header column at position
    n + c; a negative selector below -n raises the parameter error of an
    index that does not fit the header. *)
Theorem C10_negative_index (hdr : list string) (c : Z) :
  c < 0 ->
  (- Py.len hdr <= c ->
   exists name,
     hdr !! Z.to_nat (Py.len hdr + c) = Some name /\
     select_column (Some hdr) (ColInt c) =
       Ok (name, Pandas.mk_kwargs Pandas.header_infer
                   (LStr <$> ["chrom"; "start"; "end"; name]) None)) /\
  (c < - Py.len hdr ->
   select_column (Some hdr) (ColInt c) =
     Raise (BadParameter ("Column #" +:+ pretty c +:+ " not compatible with header "
                          +:+ Py.dq +:+ Py.join "," hdr +:+ Py.dq +:+ "."))).
Proof.
  intros Hneg. split; intros H.
  - destruct (hdr !! Z.to_nat (Py.len hdr + c)) as [name|] eqn:E.
    + exists name. split; [done|].
      unfold select_column. rewrite index_negative by lia. by rewrite E.
    + apply lookup_ge_None in E. unfold Py.len in *. lia.
  - unfold select_column.
    destruct (Py.index hdr c) as [name|] eqn:E; [|done].
    assert (Py.index hdr c <> None) as Hn by congruence.
    rewrite index_None in Hn. exfalso. apply Hn. lia.
Qed.

Lemma C10_negative_index_witness :
  exists name,
    Example.track_header !! Z.to_nat (Py.len Example.track_header + (-1)) = Some name /\
    select_column (Some Example.track_header) (ColInt (-1)) =
      Ok (name, Pandas.mk_kwargs Pandas.header_infer
                  (LStr <$> ["chrom"; "start"; "end"; name]) None).
Proof.
  apply (C10_negative_index Example.track_header (-1)); [lia | vm_compute; discriminate].
Defined.

(** ** Reading a table *)

Lemma convert_Raise (cv : Pandas.converters) (d : dtype) (s : string) (e : exn) :
  Pandas.convert cv d s = Raise e -> pandas_error e.
Proof.
  unfold Pandas.convert. destruct d; try discriminate.
  - destruct (Pandas.parse_int64 cv s); [discriminate|]. by intros [= <-].
  - destruct (Pandas.parse_float64 cv s); [discriminate|]. by intros [= <-].
Qed.

Lemma convert_typed (cv : Pandas.converters) (d : dtype) (s : string) (c : cell) :
  Pandas.convert cv d s = Ok c -> has_dtype c d.
Proof.
  unfold Pandas.convert. destruct d.
  - by intros [= <-].
  - destruct (Pandas.parse_int64 cv s); [|discriminate]. by intros [= <-].
  - destruct (Pandas.parse_float64 cv s); [|discriminate]. by intros [= <-].
  - by intros [= <-].
Qed.

Lemma parse_line_Raise cv dtypes width sel line e :
  Pandas.parse_line cv dtypes width sel line = Raise e -> pandas_error e.
Proof.
  unfold Pandas.parse_line. case_bool_decide; [|by intros [= <-]].
  intros Ht. apply traverse_Raise in Ht as (p & _ & Hp). by eapply convert_Raise.
Qed.

Lemma parse_data_Raise cv dtypes width sel data e :
  Pandas.parse_data cv dtypes width sel data = Raise e -> pandas_error e.
Proof.
  unfold Pandas.parse_data. intros Hd.
  apply bind_Raise in Hd as [Hd | (rs & _ & Hd)]; [|discriminate].
  apply traverse_Raise in Hd as (line & _ & Hl). by eapply parse_line_Raise.
Qed.

Lemma unmatched_error_pandas (u : label) : pandas_error (Pandas.unmatched_error u).
Proof. by destruct u. Qed.

Lemma assign_names_Raise usecols ns kept e :
  Pandas.assign_names usecols ns kept = Raise e -> pandas_error e.
Proof.
  unfold Pandas.assign_names. repeat case_bool_decide; try discriminate.
  by intros [= <-].
Qed.

(** [read_table] raises pandas' own errors only. *)
Lemma read_table_Raise cv buf dtypes kw e :
  Pandas.read_table cv buf dtypes kw = Raise e -> pandas_error e.
Proof.
  unfold Pandas.read_table. destruct buf as [|first rest]; [by intros [= <-]|].
  destruct (Pandas.header kw), (Pandas.names kw) as [ns|];
    match goal with
    | |- context [Pandas.unmatched ?u ?w ?h] => destruct (Pandas.unmatched u w h) as [u0|]
    end;
    try (intros [= <-]; apply unmatched_error_pandas);
    try apply parse_data_Raise.
  all: intros Hb; apply bind_Raise in Hb as [Hb | (sel & _ & Hb)];
    [by eapply assign_names_Raise | by eapply parse_data_Raise].
Qed.

Lemma parse_data_typed cv dtypes width sel data df :
  Pandas.parse_data cv dtypes width sel data = Ok df ->
  schema df = (fun p => (p.2, Pandas.col_dtype dtypes p.2)) <$> sel /\ well_typed df.
Proof.
  unfold Pandas.parse_data. intros Hd. inv_bind Hd. injection Hd as <-.
  split; [done|]. unfold well_typed. simpl.
  apply traverse_Ok in Ha. induction Ha as [|line row data rs Hrow _ IH]; constructor; [|done].
  unfold Pandas.parse_line in Hrow. case_bool_decide; [|discriminate].
  apply traverse_Ok in Hrow. clear -Hrow.
  induction Hrow as [|p c sel row Hc _ IH]; simpl; constructor; [|done].
  simpl. by eapply convert_typed.
Qed.

(** ** The column selector *)

Lemma select_column_header (hdr : list string) (col : Col) :
  (selector_rejected hdr col /\
   exists msg, select_column (Some hdr) col = Raise (BadParameter msg)) \/
  (~ selector_rejected hdr col /\
   exists name, name ∈ hdr /\ select_column (Some hdr) col = Ok (name, header_kwargs name)).
Proof.
  destruct col as [c|s]; simpl.
  - destruct (Py.index hdr c) as [name|] eqn:E.
    + right. split.
      * rewrite <- index_None. congruence.
      * exists name. split; [by eapply index_Some_elem | done].
    + left. split; [by apply index_None | eauto].
  - case_bool_decide as Hs.
    + left. split; [done | by eexists].
    + right. split; [by intros Hn|]. by exists s.
Qed.

Lemma read_track_BadParameter (W : World) (buf : Buf) names col msg :
  read_track W buf names col = Raise (BadParameter msg) ->
  select_column names col = Raise (BadParameter msg).
Proof.
  unfold read_track. intros H.
  apply bind_Raise in H as [H | ([name kw] & Hs & H)]; [done|].
  apply bind_Raise in H as [H | (df & _ & H)]; [|discriminate].
  apply read_table_Raise in H. contradiction.
Qed.

(** C5: under a detected header the loader raises a parameter error exactly
    when the requested name is absent from the header or the requested
    position is out of range for it; otherwise the selector resolves to a
    column name of the header. *)
Theorem C5_header_selector (W : World) (buf : Buf) (hdr : list string) (col : Col) :
  ((exists msg, read_track W buf (Some hdr) col = Raise (BadParameter msg))
   <-> selector_rejected hdr col) /\
  (~ selector_rejected hdr col ->
   exists name, name ∈ hdr /\ select_column (Some hdr) col = Ok (name, header_kwargs name)).
Proof.
  destruct (select_column_header hdr col) as [[Hr [msg Hs]] | [Hr (name & Hin & Hs)]].
  - split; [|contradiction]. split; [done|]. intros _. exists msg.
    unfold read_track. by rewrite Hs.
  - split; [|eauto]. split; [|contradiction].
    intros [msg Hm]. apply read_track_BadParameter in Hm. congruence.
Qed.

(** ** A file without header *)

Lemma filter_none {A : Type} (P : A -> Prop) `{forall x, Decision (P x)} (l : list A) :
  (forall x, x ∈ l -> ~ P x) -> filter P l = [].
Proof.
  induction l as [|x l IH]; intros Hl; [done|].
  rewrite filter_cons_False by (apply Hl; left).
  apply IH. intros y Hy. apply Hl. by right.
Qed.

Lemma filter_seq_one (P : nat -> Prop) `{forall x, Decision (P x)} (a n k : nat) :
  (a <= k < a + n)%nat ->
  (forall i, (a <= i < a + n)%nat -> P i <-> i = k) ->
  filter P (seq a n) = [k].
Proof.
  revert a. induction n as [|n IH]; intros a Hk HP; [lia|]. simpl.
  destruct (decide (a = k)) as [->|Hne].
  - rewrite filter_cons_True by (apply HP; lia). f_equal.
    apply filter_none. intros i Hi%elem_of_seq. rewrite HP by lia. lia.
  - rewrite filter_cons_False by (rewrite HP; lia).
    apply IH; [lia|]. intros i Hi. apply HP. lia.
Qed.

Lemma kept_headerless (c : Z) (w : nat) :
  3 <= c < Z.of_nat w ->
  filter (fun i => LInt (Z.of_nat i) ∈ [LInt 0; LInt 1; LInt 2; LInt c]) (seq 0 w)
  = [0; 1; 2; Z.to_nat c]%nat.
Proof.
  intros Hc. destruct w as [|[|[|w]]]; try lia. simpl seq.
  rewrite !filter_cons_True by (rewrite !elem_of_cons; auto).
  do 3 f_equal. apply filter_seq_one; [lia|].
  intros i Hi. rewrite !elem_of_cons, elem_of_nil.
  split.
  - intros [Hx|[Hx|[Hx|[Hx|[]]]]]; injection Hx; lia.
  - intros ->. do 3 right. left. f_equal. lia.
Qed.

(** What the loader does on a file without header when the selector is a
    position of the file past the coordinates. *)
Lemma read_track_headerless (W : World) (first : list string) (rest : Buf) (c : Z) :
  3 <= c < Py.len first ->
  read_track W (first :: rest) None (ColInt c) =
    (df ← Pandas.parse_data (numpy W) (dtype_arg "ref") (length first)
            [(0%nat, LStr "chrom"); (1%nat, LStr "start"); (2%nat, LStr "end");
             (Z.to_nat c, LStr "ref")]
            (first :: rest);
     Ok (df, "ref")).
Proof.
  intros Hc. unfold Py.len in Hc. unfold read_track. simpl.
  assert (Pandas.unmatched [LInt 0; LInt 1; LInt 2; LInt c] (length first)
            ["chrom"; "start"; "end"; "ref"] = None) as ->.
  { unfold Pandas.unmatched. apply fmap_None, list_find_None.
    repeat constructor; simpl; rewrite bool_decide_eq_true_2; (done || lia). }
  rewrite kept_headerless by done. done.
Qed.

Lemma read_track_headerless_width (W : World) (buf : Buf) (c : Z) df name :
  read_track W buf None (ColInt c) = Ok (df, name) ->
  exists first rest, buf = first :: rest /\ 0 <= c < Py.len first.
Proof.
  unfold read_track. simpl. destruct buf as [|first rest]; [discriminate|].
  simpl. intros Hr. exists first, rest. split; [done|].
  destruct (Pandas.unmatched _ _ _) as [u|] eqn:Hu; [discriminate|].
  unfold Pandas.unmatched in Hu. apply fmap_None, list_find_None in Hu.
  rewrite !Forall_cons in Hu. destruct Hu as (_ & _ & _ & Hc & _).
  simpl in Hc. apply not_false_is_true, bool_decide_eq_true_1 in Hc. done.
Qed.

(** The value column of a table parsed with the value at position [k] of
    the lines as fourth selected column. *)
Lemma parse_data_value_column cv dtypes width (a0 a1 a2 k : nat) (l0 l1 l2 : label)
    (name : string) (data : Buf) (df : DataFrame) :
  Pandas.parse_data cv dtypes width [(a0, l0); (a1, l1); (a2, l2); (k, LStr name)] data = Ok df ->
  Forall2 (fun line row =>
             exists v, Pandas.convert cv (Pandas.col_dtype dtypes (LStr name))
                         (default EmptyString (line !! k)) = Ok v
                       /\ Pandas.field row 3 = v)
          data (rows df).
Proof.
  unfold Pandas.parse_data. intros Hd. inv_bind Hd. injection Hd as <-. simpl.
  apply traverse_Ok in Ha. induction Ha as [|line row data rs Hrow _ IH]; constructor; [|done].
  unfold Pandas.parse_line in Hrow. case_bool_decide; [|discriminate].
  apply traverse_Ok in Hrow.
  repeat match goal with
         | Hf : Forall2 _ (_ :: _) _ |- _ => inversion Hf; clear Hf; subst
         | Hf : Forall2 _ [] _ |- _ => inversion Hf; clear Hf; subst
         end.
  eauto.
Qed.

(** The dtypes the script asks for the four columns of a track without
    header. *)
Lemma headerless_dtypes :
  Pandas.col_dtype (dtype_arg "ref") (LStr "chrom") = dt_str /\
  Pandas.col_dtype (dtype_arg "ref") (LStr "start") = dt_int64 /\
  Pandas.col_dtype (dtype_arg "ref") (LStr "end") = dt_int64 /\
  Pandas.col_dtype (dtype_arg "ref") (LStr "ref") = dt_float64.
Proof. repeat split; reflexivity. Qed.

(** A line that parses is parsed. *)
Lemma parse_line_headerless (cv : Pandas.converters) (width c : nat) (line : list string) :
  line_parses cv width c line ->
  exists row,
    Pandas.parse_line cv (dtype_arg "ref") width
      [(0%nat, LStr "chrom"); (1%nat, LStr "start"); (2%nat, LStr "end"); (c, LStr "ref")]
      line = Ok row.
Proof.
  intros (Hlen & [z1 H1] & [z2 H2] & [x Hx]). unfold Pandas.parse_line.
  rewrite bool_decide_eq_true_2 by done.
  destruct headerless_dtypes as (D0 & D1 & D2 & D3).
  cbn [traverse fst snd]. rewrite D0, D1, D2, D3.
  unfold Pandas.convert. rewrite H1, H2, Hx. cbn. eauto.
Qed.

(** C4 (as amended): when no header is detected, every integer selector
    passes the selector check and is the position asked of the parser for
    the value column [ref]; when that position is a field of the file past
    the three coordinates and the lines parse, the track loads and its
    value column is the column at that position; any other selector raises
    the parameter error that names the missing header. *)
Theorem C4_headerless_selector (W : World) (first : list string) (rest : Buf) (c : Z)
    (s : string) :
  select_column None (ColInt c) = Ok ("ref", headerless_kwargs c) /\
  (forall buf msg, read_track W buf None (ColInt c) <> Raise (BadParameter msg)) /\
  (3 <= c < Py.len first ->
   Forall (line_parses (numpy W) (length first) (Z.to_nat c)) (first :: rest) ->
   exists df vals,
     read_track W (first :: rest) None (ColInt c) = Ok (df, "ref") /\
     schema df = track_schema "ref" /\
     Pandas.getitem df (LStr "ref") = Ok vals /\
     Forall2 (fun line v =>
                Pandas.convert (numpy W) dt_float64
                  (default EmptyString (line !! Z.to_nat c)) = Ok v)
             (first :: rest) vals) /\
  (forall buf,
     read_track W buf None (ColStr s) =
       Raise (BadParameter ("No header found. " +:+ "Cannot find " +:+ Py.dq +:+ s
                            +:+ Py.dq +:+ " column without a header."))).
Proof.
  split; [done|]. split; [|split; [|done]].
  - intros buf msg Hm. apply read_track_BadParameter in Hm. discriminate.
  - intros Hc Hlines. rewrite read_track_headerless by done.
    destruct (traverse_all_Ok
                (Pandas.parse_line (numpy W) (dtype_arg "ref") (length first)
                   [(0%nat, LStr "chrom"); (1%nat, LStr "start"); (2%nat, LStr "end");
                    (Z.to_nat c, LStr "ref")])
                (first :: rest)) as [rs Hrs].
    { rewrite Forall_forall in Hlines. intros line Hline.
      by apply parse_line_headerless, Hlines. }
    destruct (Pandas.parse_data (numpy W) (dtype_arg "ref") (length first)
                [(0%nat, LStr "chrom"); (1%nat, LStr "start"); (2%nat, LStr "end");
                 (Z.to_nat c, LStr "ref")] (first :: rest)) as [df|e] eqn:Hd.
    2:{ unfold Pandas.parse_data in Hd. rewrite Hrs in Hd. discriminate. }
    pose proof (parse_data_typed _ _ _ _ _ _ Hd) as [Hs _].
    pose proof Hd as Hv. apply parse_data_value_column in Hv.
    exists df, ((fun row => Pandas.field row 3) <$> rows df).
    split; [done|]. split; [by rewrite Hs|]. split.
    + unfold Pandas.getitem, Pandas.col_pos, Pandas.lookup_col. by rewrite Hs.
    + apply Forall2_fmap_r. eapply Forall2_impl; [exact Hv|].
      intros line row (v & Hcv & <-). exact Hcv.
Qed.

(** The track without header of the example, read by its fourth column. *)
Lemma C4_headerless_selector_witness :
  exists df vals,
    read_track Example.world Example.nohdr_tsv None (ColInt 3) = Ok (df, "ref") /\
    schema df = track_schema "ref" /\
    Pandas.getitem df (LStr "ref") = Ok vals /\
    Forall2 (fun line v =>
               Pandas.convert Example.cv dt_float64 (default EmptyString (line !! 3%nat)) = Ok v)
            Example.nohdr_tsv vals.
Proof.
  destruct (C4_headerless_selector Example.world ["chr1"; "0"; "10"; "1"]
              [["chr1"; "10"; "20"; "2"]; ["chr2"; "0"; "10"; "3"]] 3 EmptyString)
    as (_ & _ & H3 & _).
  apply H3.
  - vm_compute. split; discriminate || reflexivity.
  - repeat constructor; vm_compute; eauto; lia.
Defined.

(** C4 as stated fails: the track without header of the example has four
    fields to a line; the integer selector 7 does not load it, and the
    integer selector 1 loads a table of the three coordinate columns
    without a value column [ref]. *)
Lemma C4_counterexample :
  read_track Example.world Example.nohdr_tsv None (ColInt 7)
    = Raise (ParserError "Defining usecols with out-of-bounds indices is not allowed") /\
  exists df,
    read_track Example.world Example.nohdr_tsv None (ColInt 1) = Ok (df, "ref") /\
    columns df = [LStr "chrom"; LStr "start"; LStr "end"] /\
    Pandas.getitem df (LStr "ref") = Raise (KeyError (LStr "ref")).
Proof.
  split; [vm_compute; reflexivity|].
  destruct (read_track Example.world Example.nohdr_tsv None (ColInt 1))
    as [[df name]|e] eqn:E; vm_compute in E; [|discriminate].
  injection E as <- <-. eexists. split; [reflexivity|].
  split; vm_compute; reflexivity.
Qed.

(** ** A file with header *)

Lemma elem_of_zip_seq {A : Type} (l : list A) (i : nat) (x : A) :
  (i, x) ∈ zip (seq 0 (length l)) l <-> l !! i = Some x.
Proof.
  rewrite elem_of_lookup_zip_with. split.
  - intros (j & i' & x' & [= -> ->] & Hi & Hx). apply lookup_seq in Hi as [-> _]. done.
  - intros Hx. exists i, i, x. split; [done|]. split; [|done].
    apply lookup_seq. split; [done|]. by eapply lookup_lt_Some.
Qed.

Lemma NoDup_zip_seq {A : Type} (l : list A) : NoDup (zip (seq 0 (length l)) l).
Proof.
  apply (NoDup_fmap_1 fst). rewrite fst_zip by (by rewrite length_seq).
  apply NoDup_seq.
Qed.

Lemma elem_of_selected usecols hdr (i : nat) (l : label) :
  (i, l) ∈ Pandas.selected usecols hdr <->
  exists h, l = LStr h /\ hdr !! i = Some h /\
            (LInt (Z.of_nat i) ∈ usecols \/ (LStr h ∈ usecols /\ h ∉ take i hdr)).
Proof.
  unfold Pandas.selected. rewrite list_elem_of_fmap. split.
  - intros ([j h] & [= -> ->] & Hin). apply list_elem_of_filter in Hin as [HP Hin].
    apply elem_of_zip_seq in Hin. eauto.
  - intros (h & -> & Hh & HP). exists (i, h). split; [done|].
    apply list_elem_of_filter. split; [done|]. by apply elem_of_zip_seq.
Qed.

Lemma NoDup_selected usecols hdr : NoDup (Pandas.selected usecols hdr).
Proof.
  unfold Pandas.selected. apply NoDup_fmap_2_strong.
  - intros [i h] [j k] _ _ [= -> ->]. done.
  - apply NoDup_filter, NoDup_zip_seq.
Qed.

Lemma first_occurrence (hdr : list string) (h : string) :
  h ∈ hdr -> exists i, hdr !! i = Some h /\ h ∉ take i hdr.
Proof.
  intros Hin.
  destruct (list_find_elem_of (fun x => x = h) hdr h Hin eq_refl) as [[i x] Hf].
  apply list_find_Some in Hf as (Hi & -> & Hfirst).
  exists i. split; [done|]. intros (j & Hj & Hlt)%elem_of_take.
  by apply (Hfirst j h).
Qed.

(** The columns kept for a list of distinct names of the header are those
    names, in the order of the file. *)
Lemma selected_names (names hdr : list string) :
  NoDup names -> (forall s, s ∈ names -> s ∈ hdr) ->
  snd <$> Pandas.selected (LStr <$> names) hdr ≡ₚ LStr <$> names.
Proof.
  intros Hnd Hsub.
  assert (forall i, LInt i ∉ LStr <$> names) as Hint.
  { intros i (s & [=] & _)%list_elem_of_fmap. }
  apply NoDup_Permutation.
  - apply NoDup_fmap_2_strong; [|apply NoDup_selected].
    intros [i l] [j l'] Hi Hj. simpl. intros <-.
    apply elem_of_selected in Hi as (h & -> & Hhi & [Hi | [_ Hi]]); [by apply Hint in Hi|].
    apply elem_of_selected in Hj as (h' & [= <-] & Hhj & [Hj | [_ Hj]]); [by apply Hint in Hj|].
    f_equal. destruct (Nat.lt_trichotomy i j) as [Hlt | [-> | Hlt]]; [|done|].
    + exfalso. apply Hj. apply elem_of_take. eauto.
    + exfalso. apply Hi. apply elem_of_take. eauto.
  - apply NoDup_fmap_2_strong; [|done]. by intros s s' _ _ [= ->].
  - intros l. rewrite list_elem_of_fmap. split.
    + intros ([i l'] & -> & Hin). simpl.
      apply elem_of_selected in Hin as (h & -> & _ & [Hi | [Hi _]]); [by apply Hint in Hi | done].
    + intros Hl. pose proof Hl as (s & -> & Hs)%list_elem_of_fmap.
      destruct (first_occurrence hdr s (Hsub s Hs)) as (i & Hi & Hfirst).
      exists (i, LStr s). split; [done|]. apply elem_of_selected. eauto 10.
Qed.

Lemma unmatched_None_names (names : list string) (w : nat) (hdr : list string) :
  Pandas.unmatched (LStr <$> names) w hdr = None -> forall s, s ∈ names -> s ∈ hdr.
Proof.
  unfold Pandas.unmatched. intros Hu%fmap_None%list_find_None s Hs.
  rewrite Forall_forall in Hu. specialize (Hu (LStr s)).
  apply not_false_is_true, bool_decide_eq_true_1 in Hu; [done|].
  apply list_elem_of_fmap. eauto.
Qed.

Lemma dtype_arg_schema (track_name : string) :
  track_name ∉ coords ->
  (fun l => (l, Pandas.col_dtype (dtype_arg track_name) l))
    <$> (LStr <$> ["chrom"; "start"; "end"; track_name])
  = track_schema track_name.
Proof.
  unfold coords. rewrite !not_elem_of_cons. intros (H1 & H2 & H3 & _).
  unfold track_schema, dtype_arg. simpl.
  rewrite lookup_insert_eq. rewrite !(lookup_insert_ne _ track_name) by done.
  done.
Qed.

(** The table read from a file with header: its columns are the three
    coordinates and the value column when that is none of them. *)
Lemma read_track_header_schema (W : World) (buf : Buf) hdr col df name :
  read_track W buf (Some hdr) col = Ok (df, name) ->
  name ∉ coords ->
  four_typed_columns df name.
Proof.
  unfold read_track. intros Hr Hname.
  destruct (select_column_header hdr col) as [[_ [msg Hs]] | [_ (tn & _ & Hs)]];
    rewrite Hs in Hr; [discriminate|].
  simpl in Hr. inv_bind Hr. injection Hr as -> ->.
  unfold Pandas.read_table in Ha. destruct buf as [|first rest]; [discriminate|].
  simpl in Ha.
  destruct (Pandas.unmatched _ _ _) eqn:Hu; [discriminate|].
  apply parse_data_typed in Ha as [Hs' Ht]. split; [|done].
  rewrite Hs'.
  rewrite <- (dtype_arg_schema name Hname).
  match goal with
  | |- _ <$> ?sel ≡ₚ _ =>
      assert (forall sel' : list (nat * label),
                (fun p => (p.2, Pandas.col_dtype (dtype_arg name) p.2)) <$> sel'
                = (fun l => (l, Pandas.col_dtype (dtype_arg name) l)) <$> (snd <$> sel'))
        as -> by (intros; by rewrite <- list_fmap_compose)
  end.
  apply fmap_Permutation.
  apply (selected_names ["chrom"; "start"; "end"; name]).
  - unfold coords in Hname. rewrite !not_elem_of_cons in Hname.
    destruct Hname as (H1 & H2 & H3 & _).
    repeat (constructor; [rewrite ?not_elem_of_cons, ?elem_of_nil; naive_solver|]).
    constructor.
  - by eapply unmatched_None_names.
Qed.

(** C6 (as amended): a reference track that loads, and whose value column
    is none of the three coordinate columns, is a table of exactly four
    columns: chrom, start, end and the requested value column, typed as
    string, integer, integer and float. *)
Theorem C6_four_typed_columns (W : World) (buf : Buf) (names : option (list string))
    (col : Col) (df : DataFrame) (name : string) :
  read_track W buf names col = Ok (df, name) ->
  value_off_coords names col name ->
  four_typed_columns df name.
Proof.
  intros Hr Hoff. destruct names as [hdr|].
  - by eapply read_track_header_schema.
  - destruct col as [c|s]; [|contradiction]. simpl in Hoff.
    destruct (read_track_headerless_width _ _ _ _ _ Hr) as (first & rest & -> & Hw).
    rewrite read_track_headerless in Hr by lia.
    inv_bind Hr. injection Hr as -> <-.
    apply parse_data_typed in Ha as [Hs Ht]. split; [|done]. by rewrite Hs.
Qed.

(** The track of the example, loaded by the name of its value column. *)
Lemma C6_four_typed_columns_witness :
  exists df,
    read_track Example.world Example.track_tsv (Some Example.track_header) (ColStr "E1")
      = Ok (df, "E1") /\
    four_typed_columns df "E1".
Proof.
  destruct (read_track Example.world Example.track_tsv (Some Example.track_header)
              (ColStr "E1")) as [[df name]|e] eqn:E; [|vm_compute in E; discriminate].
  assert (name = "E1") as -> by (vm_compute in E; congruence).
  exists df. split; [reflexivity|].
  apply (C6_four_typed_columns Example.world Example.track_tsv (Some Example.track_header)
           (ColStr "E1") df "E1" E).
  simpl. compute_done.
Defined.

(** C6 as stated fails: the header of the example has the requested name
    [start], the track loads, and the table has three columns, with
    [start] typed as a float. *)
Lemma C6_counterexample :
  exists df,
    read_track Example.world Example.track_tsv (Some Example.track_header) (ColStr "start")
      = Ok (df, "start") /\
    schema df = [(LStr "chrom", dt_str); (LStr "start", dt_float64); (LStr "end", dt_int64)] /\
    ~ four_typed_columns df "start".
Proof.
  destruct (read_track Example.world Example.track_tsv (Some Example.track_header)
              (ColStr "start")) as [[df name]|e] eqn:E; vm_compute in E; [|discriminate].
  injection E as <- <-. eexists. split; [reflexivity|]. split; [reflexivity|].
  intros [Hp _]. apply Permutation_length in Hp. discriminate.
Qed.

(** ** Runs *)

Lemma lift_Ok_bind {A B : Type} (a : A) (f : A -> M B) : mbind f (lift (Ok a)) = f a.
Proof. unfold mbind, M_bind, lift. simpl. by destruct (f a). Qed.

Lemma lift_Raise_bind {A B : Type} (e : exn) (f : A -> M B) :
  mbind f (lift (Raise e)) = mkM [] (Raise e).
Proof. done. Qed.

Lemma M_bind_Ok {A B : Type} (m : M A) (f : A -> M B) (b : B) :
  outcome (mbind f m) = Ok b ->
  exists a, outcome m = Ok a /\ outcome (f a) = Ok b
            /\ trace (mbind f m) = trace m ++ trace (f a).
Proof.
  unfold mbind, M_bind. destruct (outcome m) as [a|e] eqn:E; simpl; [eauto | discriminate].
Qed.

(** ** The merge of the track with the bins *)

(** C1: the code breaks the bound.  The track of the example gives the
    first of the three bins two values: the left join has four rows, the
    check lets them pass and the run ends normally. *)
Theorem C1_merged_rows_exceed_bins :
  track_phase Example.world Example.clr "matrix.cool" (Some ("dup.tsv", ColStr "E1"))
    = Ok (Example.dup_merged, Some "E1") /\
  Pandas.len Example.dup_merged = 4 /\
  Pandas.len (bins Example.clr) = 3 /\
  outcome (call_compartments Example.world "matrix.cool" (Some ("dup.tsv", ColStr "E1"))
             None cis 3 false "out" false) = Ok tt.
Proof. repeat split; vm_compute; reflexivity. Qed.

(** C2: when the merged table has more rows than the bin table, the check
    builds the error and drops it: nothing is raised, the merged track is
    what the track phase returns, and the run goes on with the region
    resolution and the analysis dispatch on that track. *)
Theorem C2_mismatch_not_raised (W : World) (clr : Cooler) (cool_path track_path : string)
    (col : Col) (buf : Buf) (names : option (list string)) (track_df track : DataFrame)
    (track_name : string) (regions : option string) (contact_type : ContactType)
    (n_eigs : Z) (verbose : bool) (out_prefix : string) (bigwig : bool) :
  cooler_Cooler W cool_path = Ok clr ->
  sniff_for_header W track_path = Ok (buf, names) ->
  read_track W buf names col = Ok (track_df, track_name) ->
  Pandas.merge_left (bins clr) track_df (LStr <$> coords) = Ok track ->
  Pandas.len track > Pandas.len (bins clr) ->
  merge_check clr cool_path track_path track = Ok tt /\
  track_phase W clr cool_path (Some (track_path, col)) = Ok (track, Some track_name) /\
  call_compartments W cool_path (Some (track_path, col)) regions contact_type n_eigs verbose
    out_prefix bigwig
  = analyse W clr track (Some track_name) regions contact_type n_eigs out_prefix bigwig /\
  (forall cis_regions_table,
     regions_phase W clr track regions contact_type = Ok cis_regions_table ->
     exists rest,
       trace (call_compartments W cool_path (Some (track_path, col)) regions contact_type
                n_eigs verbose out_prefix bigwig)
       = dispatch_event contact_type track cis_regions_table n_eigs (Some track_name) :: rest).
Proof.
  intros Hclr Hsniff Hread Hmerge Hlen.
  assert (merge_check clr cool_path track_path track = Ok tt) as Hcheck.
  { unfold merge_check. by case_bool_decide. }
  assert (track_phase W clr cool_path (Some (track_path, col)) = Ok (track, Some track_name))
    as Hphase.
  { unfold track_phase. rewrite Hsniff, Ok_bind, Hread, Ok_bind, Hmerge, Ok_bind.
    by rewrite Hcheck. }
  assert (call_compartments W cool_path (Some (track_path, col)) regions contact_type n_eigs
            verbose out_prefix bigwig
          = analyse W clr track (Some track_name) regions contact_type n_eigs out_prefix bigwig)
    as Hrun.
  { unfold call_compartments. rewrite Hclr, lift_Ok_bind, Hphase, lift_Ok_bind. done. }
  repeat split; try done.
  intros cis_regions_table Hreg. rewrite Hrun. unfold analyse.
  rewrite Hreg, lift_Ok_bind.
  unfold mbind, M_bind, dispatch, dispatch_event.
  destruct contact_type; simpl;
    match goal with
    | |- context [match ?r with Ok _ => _ | Raise _ => _ end] =>
        destruct r as [[eigvals eigvec]|e]
    end;
    simpl; eauto.
Qed.

Lemma C2_mismatch_not_raised_witness :
  merge_check Example.clr "matrix.cool" "dup.tsv" Example.dup_merged = Ok tt /\
  track_phase Example.world Example.clr "matrix.cool" (Some ("dup.tsv", ColStr "E1"))
    = Ok (Example.dup_merged, Some "E1").
Proof.
  destruct (C2_mismatch_not_raised Example.world Example.clr "matrix.cool" "dup.tsv"
              (ColStr "E1") Example.dup_tsv (Some Example.track_header)
              Example.dup_track_df Example.dup_merged "E1" None cis 3 false "out" false)
    as (H1 & H2 & _); try (vm_compute; reflexivity).
  split; assumption.
Defined.

(** ** Regions with the trans contact type *)

(** C3 (as amended): a run given a regions file together with the trans
    contact type fails before either decomposition is called (no event at
    all is observed); the failure is [NotImplementedError] whenever the
    matrix opens and the track phase completes, and is otherwise the error
    that came first. *)
Theorem C3_regions_with_trans (W : World) (cool_path : string)
    (reference_track : option (string * Col)) (regions : string) (n_eigs : Z)
    (verbose : bool) (out_prefix : string) (bigwig : bool) :
  trace (call_compartments W cool_path reference_track (Some regions) trans n_eigs verbose
           out_prefix bigwig) = [] /\
  (exists e, outcome (call_compartments W cool_path reference_track (Some regions) trans
                        n_eigs verbose out_prefix bigwig) = Raise e) /\
  (forall clr track track_name,
     cooler_Cooler W cool_path = Ok clr ->
     track_phase W clr cool_path reference_track = Ok (track, track_name) ->
     outcome (call_compartments W cool_path reference_track (Some regions) trans n_eigs
                verbose out_prefix bigwig)
     = Raise (NotImplementedError "Regions not yet supported with trans contact type")).
Proof.
  unfold call_compartments.
  destruct (cooler_Cooler W cool_path) as [clr|e] eqn:Hclr.
  - rewrite lift_Ok_bind.
    destruct (track_phase W clr cool_path reference_track) as [[track track_name]|e] eqn:Hph.
    + rewrite lift_Ok_bind. unfold analyse. simpl.
      split; [done|]. split; [eauto|]. done.
    + rewrite lift_Raise_bind. simpl. split; [done|]. split; [eauto|].
      intros clr' track track_name [= <-]. congruence.
  - rewrite lift_Raise_bind. simpl. split; [done|]. split; [eauto|]. discriminate.
Qed.

(** C3 as stated fails: with a track without header selected by name, the
    run given regions and trans ends in the parameter error of the track
    loader, not in [NotImplementedError]. *)
Lemma C3_counterexample :
  (exists msg,
     outcome (call_compartments Example.world "matrix.cool" (Some ("nohdr.tsv", ColStr "E1"))
                (Some "regions.bed") trans 3 false "out" false)
     = Raise (BadParameter msg)) /\
  ~ raises_not_implemented
      (call_compartments Example.world "matrix.cool" (Some ("nohdr.tsv", ColStr "E1"))
         (Some "regions.bed") trans 3 false "out" false).
Proof.
  split.
  - eexists. vm_compute. reflexivity.
  - intros [msg Hm]. vm_compute in Hm. discriminate.
Qed.

(** ** The output files *)

(** C9: a run that ends normally has called one decomposition and then
    written its eigenvalue table, tab separated, to
    [<out_prefix>.<contact_type>.lam.txt] and its eigenvector table to
    [<out_prefix>.<contact_type>.vecs.tsv]; it writes
    [<out_prefix>.<contact_type>.bw] exactly when [--bigwig] is set. *)
Theorem C9_output_files (W : World) (cool_path : string)
    (reference_track : option (string * Col)) (regions : option string)
    (contact_type : ContactType) (n_eigs : Z) (verbose : bool) (out_prefix : string)
    (bigwig : bool) :
  outcome (call_compartments W cool_path reference_track regions contact_type n_eigs verbose
             out_prefix bigwig) = Ok tt ->
  exists clr track track_name cis_regions_table eigvals eigvec_table,
    cooler_Cooler W cool_path = Ok clr /\
    outcome (dispatch W clr track cis_regions_table contact_type n_eigs track_name)
      = Ok (eigvals, eigvec_table) /\
    trace (call_compartments W cool_path reference_track regions contact_type n_eigs verbose
             out_prefix bigwig)
    = [dispatch_event contact_type track cis_regions_table n_eigs track_name;
       ev_to_csv eigvals
         (((out_prefix +:+ ".") +:+ contact_type_str contact_type) +:+ ".lam.txt")
         Py.tab false;
       ev_to_csv eigvec_table
         (((out_prefix +:+ ".") +:+ contact_type_str contact_type) +:+ ".vecs.tsv")
         Py.tab false]
      ++ (if bigwig then
            [ev_to_bigwig eigvec_table (chromsizes clr)
               (((out_prefix +:+ ".") +:+ contact_type_str contact_type) +:+ ".bw") "E1"]
          else []) /\
    ((exists table sizes path value_field,
        ev_to_bigwig table sizes path value_field
          ∈ trace (call_compartments W cool_path reference_track regions contact_type n_eigs
                     verbose out_prefix bigwig))
     <-> bigwig = true).
Proof.
  unfold call_compartments. intros Hok.
  destruct (cooler_Cooler W cool_path) as [clr|e] eqn:Hclr; [|discriminate].
  rewrite lift_Ok_bind in *.
  destruct (track_phase W clr cool_path reference_track) as [[track track_name]|e] eqn:Hph;
    [|discriminate].
  rewrite lift_Ok_bind in *. unfold analyse in *.
  destruct (regions_phase W clr track regions contact_type) as [cis_regions_table|e] eqn:Hreg;
    [|discriminate].
  rewrite lift_Ok_bind in *.
  destruct (M_bind_Ok _ _ _ Hok) as ([eigvals eigvec_table] & Hd & _ & Htr).
  exists clr, track, track_name, cis_regions_table, eigvals, eigvec_table.
  split; [done|]. split; [done|].
  assert (trace (dispatch W clr track cis_regions_table contact_type n_eigs track_name)
          = [dispatch_event contact_type track cis_regions_table n_eigs track_name]) as Hdt.
  { by destruct contact_type. }
  rewrite Htr, Hdt. clear Htr Hok.
  split.
  - by destruct bigwig.
  - destruct bigwig, contact_type; simpl; split; try done.
    + intros _. do 4 eexists. do 3 right. left.
    + intros _. do 4 eexists. do 3 right. left.
    + intros (t & sz & p & v & Hin). rewrite !elem_of_cons, elem_of_nil in Hin.
      destruct Hin as [Hin|[Hin|[Hin|[]]]]; discriminate.
    + intros (t & sz & p & v & Hin). rewrite !elem_of_cons, elem_of_nil in Hin.
      destruct Hin as [Hin|[Hin|[Hin|[]]]]; discriminate.
Qed.

(** The run of the example on its track, with the bigWig file asked for. *)
Lemma C9_output_files_witness :
  exists clr track track_name cis_regions_table eigvals eigvec_table,
    cooler_Cooler Example.world "matrix.cool" = Ok clr /\
    outcome (dispatch Example.world clr track cis_regions_table cis 3 track_name)
      = Ok (eigvals, eigvec_table) /\
    trace (call_compartments Example.world "matrix.cool" (Some ("track.tsv", ColInt 3)) None
             cis 3 false "out" true)
    = [dispatch_event cis track cis_regions_table 3 track_name;
       ev_to_csv eigvals ((("out" +:+ ".") +:+ contact_type_str cis) +:+ ".lam.txt")
         Py.tab false;
       ev_to_csv eigvec_table ((("out" +:+ ".") +:+ contact_type_str cis) +:+ ".vecs.tsv")
         Py.tab false]
      ++ [ev_to_bigwig eigvec_table (chromsizes clr)
            ((("out" +:+ ".") +:+ contact_type_str cis) +:+ ".bw") "E1"].
Proof.
  destruct (C9_output_files Example.world "matrix.cool" (Some ("track.tsv", ColInt 3)) None
              cis 3 false "out" true)
    as (clr & track & track_name & regs & eigvals & eigvec_table & H1 & H2 & H3 & _);
    [vm_compute; reflexivity|].
  exists clr, track, track_name, regs, eigvals, eigvec_table. repeat split; assumption.
Defined.

(** ** The regions *)

Lemma elem_of_unique_from (seen l : list cell) (x : cell) :
  x ∈ Pandas.unique_from seen l <-> x ∈ l /\ x ∉ seen.
Proof.
  revert seen. induction l as [|y l IH]; intros seen; simpl.
  - rewrite elem_of_nil. tauto.
  - case_bool_decide as Hy.
    + rewrite IH, elem_of_cons. split; [tauto|].
      intros [[->|Hx] Hs]; [contradiction | done].
    + rewrite !elem_of_cons, IH, not_elem_of_cons. split.
      * intros [->|(Hx & Hxy & Hs)]; tauto.
      * intros [[->|Hx] Hs]; [by left|].
        destruct (decide (x = y)) as [->|Hne]; [by left | right; done].
Qed.

Lemma NoDup_unique_from (seen l : list cell) : NoDup (Pandas.unique_from seen l).
Proof.
  revert seen. induction l as [|y l IH]; intros seen; simpl; [constructor|].
  case_bool_decide; [done|]. constructor; [|done].
  rewrite elem_of_unique_from, not_elem_of_cons. tauto.
Qed.

Lemma elem_of_unique (l : list cell) (x : cell) : x ∈ Pandas.unique l <-> x ∈ l.
Proof. unfold Pandas.unique. rewrite elem_of_unique_from, elem_of_nil. tauto. Qed.

Lemma NoDup_unique (l : list cell) : NoDup (Pandas.unique l).
Proof. apply NoDup_unique_from. Qed.

(** The rows [parse_regions] makes of a sequence of names. *)
Lemma parse_region_rows (rn : string -> Z -> Z -> string) (sizes : list (string * Z))
    (vs : list cell) (rs : list (list cell)) :
  traverse (Bioframe.parse_region rn sizes) vs = Ok rs ->
  exists names,
    vs = VStr <$> names /\
    Forall2 (fun row c => exists n, Bioframe.chromsize sizes c = Some n
                                    /\ row = [VStr c; VInt 0; VInt n; VStr (rn c 0 n)])
            rs names.
Proof.
  intros Ht%traverse_Ok. induction Ht as [|v row vs rs Hv _ (names & -> & IH)].
  - by exists [].
  - destruct v as [c| |]; try discriminate. simpl in Hv.
    destruct (Bioframe.chromsize sizes c) as [n|] eqn:Hn; [|discriminate].
    injection Hv as <-. exists (c :: names). split; [done|]. constructor; eauto.
Qed.

Lemma parse_region_defined (rn : string -> Z -> Z -> string) (sizes : list (string * Z))
    (vs : list cell) :
  (forall v, v ∈ vs -> exists c n, v = VStr c /\ Bioframe.chromsize sizes c = Some n) ->
  exists rs, traverse (Bioframe.parse_region rn sizes) vs = Ok rs.
Proof.
  intros Hvs. apply traverse_all_Ok. intros v Hv.
  destruct (Hvs v Hv) as (c & n & -> & Hn). simpl. rewrite Hn. eauto.
Qed.

(** Naming the rows after their chromosomes. *)
Lemma named_by_chromosome (rn : string -> Z -> Z -> string) (sizes : list (string * Z))
    (rs : list (list cell)) (names : list string) :
  Forall2 (fun row c => exists n, Bioframe.chromsize sizes c = Some n
                                  /\ row = [VStr c; VInt 0; VInt n; VStr (rn c 0 n)])
          rs names ->
  Forall2 (whole_chromosome sizes)
          (zip_with (fun row v => <[3%nat := v]> row) rs
                    ((fun row => Pandas.field row 0) <$> rs))
          names.
Proof.
  induction 1 as [|row c rs names (n & Hn & ->) _ IH]; simpl; constructor; [|done].
  by exists n.
Qed.

Lemma default_regions_unfold (W : World) (clr : Cooler) (track : DataFrame) :
  default_regions W clr track =
    (chroms ← Pandas.getitem track (LStr "chrom");
     rs ← traverse (Bioframe.parse_region (region_name W) (chromsizes clr))
                   (Pandas.unique chroms);
     Ok {| schema := Bioframe.regions_schema;
           rows := zip_with (fun row v => <[3%nat := v]> row) rs
                            ((fun row => Pandas.field row 0) <$> rs) |}).
Proof.
  unfold default_regions.
  destruct (Pandas.getitem track (LStr "chrom")) as [chroms|e]; [|done].
  rewrite !Ok_bind. unfold Bioframe.parse_regions_names.
  destruct (traverse _ (Pandas.unique chroms)) as [rs|e]; done.
Qed.

(** C7: without a regions file the regions table has one row for each
    distinct chromosome of the track, in the order in which the track first
    names them; each row is the whole chromosome, from 0 to the size the
    cooler gives it, and its name is the chromosome.  The table is made
    whenever every chromosome of the track has a size in the cooler. *)
Theorem C7_default_regions (W : World) (clr : Cooler) (track : DataFrame)
    (contact_type : ContactType) :
  (forall cis_regions_table,
     regions_phase W clr track None contact_type = Ok cis_regions_table ->
     exists chroms names,
       Pandas.getitem track (LStr "chrom") = Ok chroms /\
       VStr <$> names = Pandas.unique chroms /\
       NoDup names /\
       (forall c, c ∈ names <-> VStr c ∈ chroms) /\
       schema cis_regions_table = Bioframe.regions_schema /\
       Forall2 (whole_chromosome (chromsizes clr)) (rows cis_regions_table) names) /\
  (forall chroms,
     Pandas.getitem track (LStr "chrom") = Ok chroms ->
     (forall v, v ∈ chroms ->
        exists c n, v = VStr c /\ Bioframe.chromsize (chromsizes clr) c = Some n) ->
     exists cis_regions_table,
       regions_phase W clr track None contact_type = Ok cis_regions_table).
Proof.
  unfold regions_phase. rewrite default_regions_unfold. split.
  - intros tbl Ht. inv_bind Ht. inv_bind Ht. injection Ht as <-. simpl.
    destruct (parse_region_rows _ _ _ _ Ha0) as (names & Hu & Hrows).
    exists a, names. split; [done|]. split; [done|].
    assert (NoDup (VStr <$> names)) as Hnd by (rewrite <- Hu; apply NoDup_unique).
    split; [by eapply NoDup_fmap_1|]. split; [|split; [done|]].
    + intros c. rewrite <- elem_of_unique, Hu, list_elem_of_fmap. split.
      * intros Hc. eauto.
      * by intros (c' & [= ->] & Hc).
    + by eapply named_by_chromosome.
  - intros chroms Hg Hall. rewrite Hg, Ok_bind.
    destruct (parse_region_defined (region_name W) (chromsizes clr) (Pandas.unique chroms))
      as [rs Hrs].
    { intros v Hv. apply Hall. by apply elem_of_unique. }
    rewrite Hrs, Ok_bind. eauto.
Qed.

(** The regions of the example's track: its two chromosomes. *)
Lemma C7_default_regions_witness :
  exists cis_regions_table,
    regions_phase Example.world Example.clr (bins Example.clr) None cis = Ok cis_regions_table /\
    Forall2 (whole_chromosome (chromsizes Example.clr)) (rows cis_regions_table)
            ["chr1"; "chr2"].
Proof.
  destruct (C7_default_regions Example.world Example.clr (bins Example.clr) cis) as [H1 _].
  destruct (regions_phase Example.world Example.clr (bins Example.clr) None cis)
    as [tbl|e] eqn:E; [|vm_compute in E; discriminate].
  destruct (H1 tbl eq_refl) as (chroms & names & Hg & Hu & _ & _ & _ & Hrows).
  exists tbl. split; [reflexivity|].
  vm_compute in Hg. injection Hg as <-. vm_compute in Hu.
  assert (names = ["chr1"; "chr2"]) as <-; [|assumption].
  destruct names as [|a [|b [|c names]]]; try discriminate. by injection Hu as -> ->.
Defined.

(** The rows a membership mask keeps have their value among the values. *)
Lemma masked_rows (rs : list (list cell)) (i : nat) (values : list cell) (row : list cell) :
  row ∈ fst <$> filter (fun p => p.2 = true)
                   (zip rs (Pandas.isin ((fun r => Pandas.field r i) <$> rs) values)) ->
  Pandas.field row i ∈ values.
Proof.
  intros ([r b] & -> & Hin)%list_elem_of_fmap. simpl.
  apply list_elem_of_filter in Hin as [Hb Hin]. simpl in Hb. subst b.
  apply elem_of_lookup_zip_with in Hin as (k & r' & b' & [= <- <-] & Hr & Hm).
  unfold Pandas.isin in Hm. rewrite !list_lookup_fmap, Hr in Hm.
  injection Hm as Hm. by apply bool_decide_eq_true_1 in Hm.
Qed.

Lemma getitem_select_rows (df : DataFrame) (l : label) (cs values : list cell) :
  Pandas.getitem df l = Ok cs ->
  exists cs',
    Pandas.getitem (Pandas.select_rows df (Pandas.isin cs values)) l = Ok cs' /\
    forall c, c ∈ cs' -> c ∈ values.
Proof.
  unfold Pandas.getitem, Pandas.col_pos, Pandas.lookup_col, Pandas.select_rows. simpl.
  destruct (list_find _ (schema df)) as [[i c]|]; [|discriminate].
  simpl. intros [= <-]. eexists. split; [done|].
  intros c' (row & -> & Hrow)%list_elem_of_fmap. by eapply masked_rows.
Qed.

(** C8: for a regions file that is read, with the cis contact type, a
    column count other than 3 and 4 raises the [ValueError] of the script;
    otherwise every region that is kept has its chromosome among the
    chromosomes of the track. *)
Theorem C8_custom_regions (W : World) (clr : Cooler) (track : DataFrame) (regions : string)
    (buf : Buf) (names : option (list string)) (df : DataFrame) :
  sniff_for_header W regions = Ok (buf, names) ->
  read_csv W buf = Ok df ->
  (Pandas.shape1 df <> 3 -> Pandas.shape1 df <> 4 ->
   regions_phase W clr track (Some regions) cis =
     Raise (ValueError ("The region file does not have three or four tab-delimited columns."
                        +:+ "We expect a bed file with columns chrom, start, end, and optional name"))) /\
  (forall cis_regions_table,
     regions_phase W clr track (Some regions) cis = Ok cis_regions_table ->
     (Pandas.shape1 df = 3 \/ Pandas.shape1 df = 4) /\
     exists track_chroms region_chroms,
       Pandas.getitem track (LStr "chrom") = Ok track_chroms /\
       Pandas.getitem cis_regions_table (LStr "chrom") = Ok region_chroms /\
       forall c, c ∈ region_chroms -> c ∈ track_chroms).
Proof.
  intros Hsniff Hread. unfold regions_phase, custom_regions.
  rewrite Hsniff, Ok_bind, Hread, Ok_bind. split.
  - intros H3 H4. rewrite bool_decide_eq_true_2; [done|].
    rewrite !not_elem_of_cons, elem_of_nil. tauto.
  - intros tbl Ht. case_bool_decide as Hshape; [discriminate|].
    split.
    { rewrite !elem_of_cons, elem_of_nil in Hshape. tauto. }
    apply bind_Ok in Ht as (parsed & _ & Ht).
    apply bind_Ok in Ht as (chroms & Hchroms & Ht).
    apply bind_Ok in Ht as (chrom & Hchrom & Ht).
    injection Ht as <-.
    destruct (getitem_select_rows parsed (LStr "chrom") chrom (Pandas.unique chroms) Hchrom)
      as (cs' & Hcs & Hall).
    exists chroms, cs'. split; [done|]. split; [done|].
    intros c Hc. apply elem_of_unique. by apply Hall.
Qed.

(** The regions file of the example: of its two regions the one on a
    chromosome of the track is kept. *)
Lemma C8_custom_regions_witness :
  exists cis_regions_table track_chroms region_chroms,
    regions_phase Example.world Example.clr (bins Example.clr) (Some "regions.bed") cis
      = Ok cis_regions_table /\
    Pandas.getitem (bins Example.clr) (LStr "chrom") = Ok track_chroms /\
    Pandas.getitem cis_regions_table (LStr "chrom") = Ok region_chroms /\
    forall c, c ∈ region_chroms -> c ∈ track_chroms.
Proof.
  destruct (C8_custom_regions Example.world Example.clr (bins Example.clr) "regions.bed"
              Example.regions_bed None
              {| schema := [(LInt 0, dt_object); (LInt 1, dt_object); (LInt 2, dt_object)];
                 rows := [[VStr "chr1"; VStr "0"; VStr "10"];
                          [VStr "chr3"; VStr "0"; VStr "5"]] |})
    as [_ H2]; [reflexivity | reflexivity |].
  destruct (regions_phase Example.world Example.clr (bins Example.clr) (Some "regions.bed") cis)
    as [tbl|e] eqn:E; [|vm_compute in E; discriminate].
  destruct (H2 tbl eq_refl) as (_ & track_chroms & region_chroms & Hg & Hr & Hall).
  exists tbl, track_chroms, region_chroms. repeat split; assumption.
Defined.

(** * Further properties of the script *)

(** ** Selecting the value column by position *)

(** X1: under a header, a position that Python's indexing of the header
    accepts selects the column named there, and selecting by that name
    gives the same arguments to [read_table] and the same loaded track. *)
Theorem select_by_position_or_name (W : World) (buf : Buf) (hdr : list string) (c : Z)
    (name : string) :
  Py.index hdr c = Some name ->
  select_column (Some hdr) (ColInt c) = Ok (name, header_kwargs name) /\
  select_column (Some hdr) (ColStr name) = select_column (Some hdr) (ColInt c) /\
  read_track W buf (Some hdr) (ColStr name) = read_track W buf (Some hdr) (ColInt c).
Proof.
  intros Hi.
  assert (select_column (Some hdr) (ColInt c) = Ok (name, header_kwargs name)) as Hc.
  { simpl. by rewrite Hi. }
  assert (select_column (Some hdr) (ColStr name) = Ok (name, header_kwargs name)) as Hn.
  { simpl. rewrite bool_decide_eq_false_2; [done|].
    intros Hnot. apply Hnot. by eapply index_Some_elem. }
  split; [done|]. split; [congruence|].
  unfold read_track. by rewrite Hc, Hn.
Qed.

Lemma select_by_position_or_name_witness :
  select_column (Some Example.track_header) (ColInt 3)
    = Ok ("E1", header_kwargs "E1") /\
  select_column (Some Example.track_header) (ColStr "E1")
    = select_column (Some Example.track_header) (ColInt 3) /\
  read_track Example.world Example.track_tsv (Some Example.track_header) (ColStr "E1")
    = read_track Example.world Example.track_tsv (Some Example.track_header) (ColInt 3).
Proof.
  apply (select_by_position_or_name Example.world Example.track_tsv Example.track_header 3
           "E1").
  reflexivity.
Defined.

(** ** Without a reference track *)

Lemma lookup_col_Raise (df : DataFrame) (l : label) (e : exn) :
  Pandas.lookup_col df l = Raise e -> e = KeyError l /\ l ∉ columns df.
Proof.
  unfold Pandas.lookup_col.
  destruct (list_find _ (schema df)) as [[i c]|] eqn:Hf; [discriminate|].
  intros [= <-]. split; [done|].
  apply list_find_None in Hf. rewrite Forall_forall in Hf.
  unfold columns. intros (c & -> & Hc)%list_elem_of_fmap. by apply (Hf c).
Qed.

Lemma getitem_lookup_col (df : DataFrame) (l : label) (i : nat) (d : dtype) :
  Pandas.lookup_col df l = Ok (i, d) ->
  Pandas.getitem df l = Ok ((fun row => Pandas.field row i) <$> rows df).
Proof. unfold Pandas.getitem, Pandas.col_pos. by intros ->. Qed.

(** X3: without a reference track the track is the bin table cut down to
    its columns chrom, start and end: same number of rows, same values in
    each of the three columns, and no value column name; it fails only with
    the [KeyError] of a coordinate column that the bin table lacks. *)
Theorem no_reference_track (W : World) (clr : Cooler) (cool_path : string) :
  (forall track track_name,
     track_phase W clr cool_path None = Ok (track, track_name) ->
     track_name = None /\
     columns track = LStr <$> coords /\
     Pandas.len track = Pandas.len (bins clr) /\
     forall l, l ∈ coords ->
               Pandas.getitem track (LStr l) = Pandas.getitem (bins clr) (LStr l)) /\
  (forall e,
     track_phase W clr cool_path None = Raise e ->
     exists l, l ∈ coords /\ e = KeyError (LStr l) /\ LStr l ∉ columns (bins clr)).
Proof.
  unfold track_phase, Pandas.getitems. split.
  - intros track track_name Ht. inv_bind Ht. injection Ht as <- <-.
    inv_bind Ha. injection Ha as <-.
    apply traverse_Ok in Ha0.
    repeat match goal with
           | Hf : Forall2 _ (_ <$> _) _ |- _ => simpl in Hf
           | Hf : Forall2 _ (_ :: _) _ |- _ => inversion Hf; clear Hf; subst
           | Hf : Forall2 _ [] _ |- _ => inversion Hf; clear Hf; subst
           end.
    repeat match goal with p : (nat * dtype)%type |- _ => destruct p end.
    split; [done|]. split; [done|]. split.
    { unfold Pandas.len, Py.len. simpl. by rewrite length_fmap. }
    intros l Hl. unfold coords in Hl. rewrite !elem_of_cons, elem_of_nil in Hl.
    destruct Hl as [->|[->|[->|[]]]];
      match goal with
      | Hc : Pandas.lookup_col (bins clr) ?lab = Ok _ |- Pandas.getitem _ ?lab = _ =>
          rewrite (getitem_lookup_col _ _ _ _ Hc)
      end;
      unfold Pandas.getitem, Pandas.col_pos, Pandas.lookup_col; simpl;
      f_equal; rewrite <- list_fmap_compose; done.
  - intros e Ht.
    apply bind_Raise in Ht as [Ht | (track & _ & Ht)]; [|discriminate].
    apply bind_Raise in Ht as [Ht | (ps & _ & Ht)]; [|discriminate].
    apply traverse_Raise in Ht as (lab & Hin & Hl).
    apply lookup_col_Raise in Hl as [-> Hnot].
    apply list_elem_of_fmap in Hin as (l & -> & Hin). eauto.
Qed.

(** The bin table of the example has the three columns. *)
Lemma no_reference_track_witness :
  exists track,
    track_phase Example.world Example.clr "matrix.cool" None = Ok (track, None) /\
    columns track = LStr <$> coords /\
    Pandas.len track = Pandas.len (bins Example.clr).
Proof.
  destruct (no_reference_track Example.world Example.clr "matrix.cool") as [H1 _].
  destruct (track_phase Example.world Example.clr "matrix.cool" None)
    as [[track name]|e] eqn:E; [|vm_compute in E; discriminate].
  destruct (H1 track name eq_refl) as (-> & Hc & Hl & _).
  exists track. repeat split; assumption.
Defined.

(** ** The shape of a run *)

Lemma M_bind_unfold {A B : Type} (m : M A) (f : A -> M B) :
  mbind f m = match outcome m with
              | Ok a => mkM (trace m ++ trace (f a)) (outcome (f a))
              | Raise e => mkM (trace m) (Raise e)
              end.
Proof. done. Qed.

(** A run is one of three: it fails before the dispatch and nothing was
    observed; the decomposition fails and it alone was observed; or the
    decomposition returns and the output is written. *)
Lemma run_shape (W : World) (cool_path : string) (reference_track : option (string * Col))
    (regions : option string) (contact_type : ContactType) (n_eigs : Z) (verbose : bool)
    (out_prefix : string) (bigwig : bool) :
  let run := call_compartments W cool_path reference_track regions contact_type n_eigs
               verbose out_prefix bigwig in
  (trace run = [] /\ exists e, outcome run = Raise e) \/
  exists clr track track_name cis_regions_table,
    cooler_Cooler W cool_path = Ok clr /\
    track_phase W clr cool_path reference_track = Ok (track, track_name) /\
    regions_phase W clr track regions contact_type = Ok cis_regions_table /\
    ((exists e,
        outcome (dispatch W clr track cis_regions_table contact_type n_eigs track_name)
          = Raise e /\
        outcome run = Raise e /\
        trace run = [dispatch_event contact_type track cis_regions_table n_eigs track_name]) \/
     (exists eigvals eigvec_table,
        outcome (dispatch W clr track cis_regions_table contact_type n_eigs track_name)
          = Ok (eigvals, eigvec_table) /\
        outcome run = Ok tt /\
        trace run = dispatch_event contact_type track cis_regions_table n_eigs track_name
                    :: output_events clr eigvals eigvec_table out_prefix contact_type bigwig)).
Proof.
  simpl. unfold call_compartments.
  destruct (cooler_Cooler W cool_path) as [clr|e] eqn:Hclr;
    [|left; rewrite lift_Raise_bind; eauto].
  rewrite lift_Ok_bind.
  destruct (track_phase W clr cool_path reference_track) as [[track track_name]|e] eqn:Hph;
    [|left; rewrite lift_Raise_bind; eauto].
  rewrite lift_Ok_bind. unfold analyse.
  destruct (regions_phase W clr track regions contact_type) as [regs|e] eqn:Hreg;
    [|left; rewrite lift_Raise_bind; eauto].
  rewrite lift_Ok_bind. right. exists clr, track, track_name, regs.
  split; [done|]. split; [done|]. split; [done|].
  assert (trace (dispatch W clr track regs contact_type n_eigs track_name)
          = [dispatch_event contact_type track regs n_eigs track_name]) as Hdt
    by (by destruct contact_type).
  rewrite M_bind_unfold, Hdt.
  destruct (outcome (dispatch W clr track regs contact_type n_eigs track_name))
    as [[eigvals eigvec_table]|e] eqn:Hd.
  - right. exists eigvals, eigvec_table. split; [done|].
    unfold output_events. by destruct bigwig.
  - left. by exists e.
Qed.

(** X9: no file is written unless the matrix opened and the track phase,
    the region resolution and the decomposition all completed: a write in
    the trace of a run comes after a decomposition that returned. *)
Theorem files_written_only_after_the_decomposition (W : World) (cool_path : string)
    (reference_track : option (string * Col)) (regions : option string)
    (contact_type : ContactType) (n_eigs : Z) (verbose : bool) (out_prefix : string)
    (bigwig : bool) (ev : event) :
  ev ∈ trace (call_compartments W cool_path reference_track regions contact_type n_eigs
                verbose out_prefix bigwig) ->
  is_write ev ->
  exists clr track track_name cis_regions_table eigvals eigvec_table rest,
    cooler_Cooler W cool_path = Ok clr /\
    track_phase W clr cool_path reference_track = Ok (track, track_name) /\
    regions_phase W clr track regions contact_type = Ok cis_regions_table /\
    outcome (dispatch W clr track cis_regions_table contact_type n_eigs track_name)
      = Ok (eigvals, eigvec_table) /\
    trace (call_compartments W cool_path reference_track regions contact_type n_eigs verbose
             out_prefix bigwig)
    = dispatch_event contact_type track cis_regions_table n_eigs track_name :: rest /\
    ev ∈ rest.
Proof.
  intros Hin Hw.
  destruct (run_shape W cool_path reference_track regions contact_type n_eigs verbose
              out_prefix bigwig)
    as [[Ht _] | (clr & track & tn & regs & Hclr & Hph & Hreg
                  & [(e' & Hd & _ & Ht) | (eigvals & eigvec & Hd & _ & Ht)])];
    simpl in Ht; rewrite Ht in Hin.
  - by apply elem_of_nil in Hin.
  - apply list_elem_of_singleton in Hin. subst ev. by destruct contact_type.
  - exists clr, track, tn, regs, eigvals, eigvec,
      (output_events clr eigvals eigvec out_prefix contact_type bigwig).
    repeat (split; [done|]).
    apply elem_of_cons in Hin as [->|Hin]; [by destruct contact_type | done].
Qed.

(** The eigenvalue file of the run of the example. *)
Lemma files_written_only_after_the_decomposition_witness :
  exists clr track track_name cis_regions_table eigvals eigvec_table,
    cooler_Cooler Example.world "matrix.cool" = Ok clr /\
    outcome (dispatch Example.world clr track cis_regions_table cis 3 track_name)
      = Ok (eigvals, eigvec_table).
Proof.
  destruct (files_written_only_after_the_decomposition Example.world "matrix.cool"
              (Some ("track.tsv", ColInt 3)) None cis 3 false "out" false
              (ev_to_csv Example.eigvals "out.cis.lam.txt" Py.tab false))
    as (clr & track & tn & regs & eigvals & eigvec & rest & H1 & _ & _ & H4 & _).
  - vm_compute. right. left.
  - exact I.
  - exists clr, track, tn, regs, eigvals, eigvec. split; assumption.
Defined.

Lemma output_events_write (clr : Cooler) (eigvals eigvec_table : DataFrame)
    (out_prefix : string) (contact_type : ContactType) (bigwig : bool) :
  Forall is_write (output_events clr eigvals eigvec_table out_prefix contact_type bigwig).
Proof. unfold output_events. destruct bigwig; repeat constructor. Qed.

(** X10: a run calls at most one decomposition, first of all it observes,
    and only the one of its contact type: a cis run never calls the trans
    decomposition and a trans run never calls the cis one. *)
Theorem one_decomposition_of_the_contact_type (W : World) (cool_path : string)
    (reference_track : option (string * Col)) (regions : option string)
    (contact_type : ContactType) (n_eigs : Z) (verbose : bool) (out_prefix : string)
    (bigwig : bool) :
  (forall b r n c,
     ev_cis_eig b r n c
       ∈ trace (call_compartments W cool_path reference_track regions contact_type n_eigs
                  verbose out_prefix bigwig) ->
     contact_type = cis) /\
  (forall b n c,
     ev_trans_eig b n c
       ∈ trace (call_compartments W cool_path reference_track regions contact_type n_eigs
                  verbose out_prefix bigwig) ->
     contact_type = trans) /\
  Forall is_write
         (tail (trace (call_compartments W cool_path reference_track regions contact_type
                         n_eigs verbose out_prefix bigwig))).
Proof.
  destruct (run_shape W cool_path reference_track regions contact_type n_eigs verbose
              out_prefix bigwig)
    as [[Ht _] | (clr & track & tn & regs & _ & _ & _ & [(e' & _ & _ & Ht) |
                                                         (ev & et & _ & _ & Ht)])];
    simpl in Ht; rewrite Ht; clear Ht.
  - split; [|split].
    + intros b r n c Hin. by apply elem_of_nil in Hin.
    + intros b n c Hin. by apply elem_of_nil in Hin.
    + constructor.
  - split; [|split].
    + intros b r n c Hin%list_elem_of_singleton. by destruct contact_type.
    + intros b n c Hin%list_elem_of_singleton. by destruct contact_type.
    + constructor.
  - pose proof (output_events_write clr ev et out_prefix contact_type bigwig) as Hw.
    rewrite Forall_forall in Hw. split; [|split].
    + intros b r n c [Hin|Hin]%elem_of_cons; [by destruct contact_type|].
      by apply Hw in Hin.
    + intros b n c [Hin|Hin]%elem_of_cons; [by destruct contact_type|].
      by apply Hw in Hin.
    + simpl. by apply Forall_forall.
Qed.

(** ** The regions that are kept *)

Lemma select_rows_isin (rs : list (list cell)) (i : nat) (values : list cell) :
  fst <$> filter (fun p => p.2 = true)
            (zip rs (Pandas.isin ((fun r => Pandas.field r i) <$> rs) values))
  = filter (fun row => Pandas.field row i ∈ values) rs.
Proof.
  induction rs as [|r rs IH]; [done|]. simpl.
  rewrite !filter_cons. simpl. case_bool_decide as Hr.
  - rewrite decide_True by done. destruct (decide _); [|contradiction].
    simpl. by f_equal.
  - rewrite decide_False by done. destruct (decide _); [contradiction|]. done.
Qed.

(** X11: of the regions of a regions file, as [bioframe.parse_regions]
    returns them, the run keeps exactly those whose chromosome is a
    chromosome of the track, in their order. *)
Theorem kept_regions (W : World) (clr : Cooler) (track : DataFrame) (regions : string)
    (buf : Buf) (names : option (list string)) (df cis_regions_table : DataFrame) :
  sniff_for_header W regions = Ok (buf, names) ->
  read_csv W buf = Ok df ->
  regions_phase W clr track (Some regions) cis = Ok cis_regions_table ->
  exists parsed track_chroms i,
    parse_regions W (Pandas.rename df (bed_columns (Pandas.shape1 df))) = Ok parsed /\
    Pandas.getitem track (LStr "chrom") = Ok track_chroms /\
    Pandas.col_pos parsed (LStr "chrom") = Ok i /\
    schema cis_regions_table = schema parsed /\
    rows cis_regions_table
    = filter (fun row => Pandas.field row i ∈ track_chroms) (rows parsed).
Proof.
  intros Hsniff Hread. unfold regions_phase, custom_regions.
  rewrite Hsniff, Ok_bind, Hread, Ok_bind.
  case_bool_decide as Hshape; [discriminate|]. intros Ht.
  apply bind_Ok in Ht as (parsed & Hparsed & Ht).
  apply bind_Ok in Ht as (chroms & Hchroms & Ht).
  apply bind_Ok in Ht as (chrom & Hchrom & Ht).
  injection Ht as <-.
  unfold Pandas.getitem in Hchrom. apply bind_Ok in Hchrom as (i & Hi & Hchrom).
  injection Hchrom as <-.
  exists parsed, chroms, i. split.
  { unfold bed_columns. by destruct (bool_decide (Pandas.shape1 df = 4)). }
  split; [done|]. split; [done|]. split; [done|].
  unfold Pandas.select_rows. simpl. rewrite select_rows_isin.
  apply list_filter_iff. intros row. apply elem_of_unique.
Qed.

Lemma kept_regions_witness :
  exists cis_regions_table parsed,
    regions_phase Example.world Example.clr (bins Example.clr) (Some "regions.bed") cis
      = Ok cis_regions_table /\
    rows parsed = [[VStr "chr1"; VStr "0"; VStr "10"; VStr "chr1"];
                   [VStr "chr3"; VStr "0"; VStr "5"; VStr "chr3"]] /\
    rows cis_regions_table = [[VStr "chr1"; VStr "0"; VStr "10"; VStr "chr1"]].
Proof.
  destruct (regions_phase Example.world Example.clr (bins Example.clr) (Some "regions.bed") cis)
    as [tbl|e] eqn:E; [|vm_compute in E; discriminate].
  destruct (kept_regions Example.world Example.clr (bins Example.clr) "regions.bed"
              Example.regions_bed None
              {| schema := [(LInt 0, dt_object); (LInt 1, dt_object); (LInt 2, dt_object)];
                 rows := [[VStr "chr1"; VStr "0"; VStr "10"];
                          [VStr "chr3"; VStr "0"; VStr "5"]] |}
              tbl eq_refl eq_refl E)
    as (parsed & chroms & i & Hp & Hc & Hi & _ & Hrows).
  vm_compute in Hp. injection Hp as <-.
  vm_compute in Hc. injection Hc as <-.
  vm_compute in Hi. injection Hi as <-.
  exists tbl,
    {| schema := [(LStr "chrom", dt_object); (LStr "start", dt_object);
                  (LStr "end", dt_object); (LStr "name", dt_str)];
       rows := [[VStr "chr1"; VStr "0"; VStr "10"; VStr "chr1"];
                [VStr "chr3"; VStr "0"; VStr "5"; VStr "chr3"]] |}.
  split; [reflexivity|]. split; [reflexivity|].
  rewrite Hrows. vm_compute. reflexivity.
Defined.

(** ** The rows of the merged table *)

Lemma merge_left_Ok (left right : DataFrame) (on : list label) (m : DataFrame) :
  Pandas.merge_left left right on = Ok m ->
  exists lk rk,
    traverse (Pandas.col_pos left) on = Ok lk /\
    traverse (Pandas.col_pos right) on = Ok rk /\
    rows m = rows left ≫=
               Pandas.join_row lk rk
                 (fst <$> filter (fun p => p.2.1 ∉ on)
                            (zip (seq 0 (length (schema right))) (schema right)))
                 (rows right).
Proof.
  unfold Pandas.merge_left. intros Hm.
  apply bind_Ok in Hm as (lk & Hlk & Hm). apply bind_Ok in Hm as (rk & Hrk & Hm).
  injection Hm as <-. eauto.
Qed.

Lemma length_join_row (lk rk extra : list nat) (rr : list (list cell)) (lrow : list cell) :
  (1 <= length (Pandas.join_row lk rk extra rr lrow))%nat.
Proof.
  unfold Pandas.join_row. destruct (filter _ rr); simpl; lia.
Qed.

Lemma length_bind_ge {A B : Type} (f : A -> list B) (l : list A) :
  (forall x, 1 <= length (f x))%nat -> (length l <= length (l ≫= f))%nat.
Proof.
  intros Hf. induction l as [|x l IH]; [done|].
  change ((x :: l) ≫= f) with (f x ++ (l ≫= f)). rewrite length_app. simpl.
  specialize (Hf x). lia.
Qed.

Lemma length_bind_eq {A B : Type} (f : A -> list B) (l : list A) :
  (forall x, length (f x) = 1%nat) -> length (l ≫= f) = length l.
Proof.
  intros Hf. induction l as [|x l IH]; [done|].
  change ((x :: l) ≫= f) with (f x ++ (l ≫= f)). rewrite length_app, Hf, IH. done.
Qed.

Lemma filter_key_NoDup {A B : Type} `{EqDecision B} (f : A -> B) (k : B) (l : list A) :
  NoDup (f <$> l) -> (length (filter (fun x => f x = k) l) <= 1)%nat.
Proof.
  induction l as [|x l IH]; [simpl; lia|].
  rewrite fmap_cons, NoDup_cons. intros [Hx Hl].
  rewrite filter_cons. destruct (decide (f x = k)) as [<-|Hne]; [|auto].
  rewrite filter_none; [simpl; lia|].
  intros y Hy Hfy. apply Hx. rewrite <- Hfy. apply list_elem_of_fmap. eauto.
Qed.

Lemma length_join_row_NoDup (lk rk extra : list nat) (rr : list (list cell))
    (lrow : list cell) :
  NoDup (Pandas.pick rk <$> rr) -> length (Pandas.join_row lk rk extra rr lrow) = 1%nat.
Proof.
  intros Hnd. unfold Pandas.join_row.
  pose proof (filter_key_NoDup (Pandas.pick rk) (Pandas.pick lk lrow) rr Hnd) as Hlen.
  destruct (filter _ rr) as [|r [|r' ms]]; simpl in *; [done | done | lia].
Qed.

(** X4: the track phase keeps every bin: with or without a reference track
    the table it returns has at least as many rows as the bin table. *)
Theorem track_keeps_every_bin (W : World) (clr : Cooler) (cool_path : string)
    (reference_track : option (string * Col)) (track : DataFrame)
    (track_name : option string) :
  track_phase W clr cool_path reference_track = Ok (track, track_name) ->
  Pandas.len (bins clr) <= Pandas.len track.
Proof.
  unfold track_phase, Pandas.len, Py.len. destruct reference_track as [[path col]|].
  - intros Ht. apply bind_Ok in Ht as ([buf names] & _ & Ht).
    apply bind_Ok in Ht as ([track_df name] & _ & Ht).
    apply bind_Ok in Ht as (m & Hm & Ht). apply bind_Ok in Ht as (u & _ & Ht).
    injection Ht as <- <-.
    apply merge_left_Ok in Hm as (lk & rk & _ & _ & ->).
    apply inj_le. apply length_bind_ge. intros lrow. apply length_join_row.
  - intros Ht. apply bind_Ok in Ht as (m & Hm & Ht). injection Ht as <- <-.
    unfold Pandas.getitems in Hm. apply bind_Ok in Hm as (ps & _ & Hm).
    injection Hm as <-. simpl. rewrite length_fmap. lia.
Qed.

Lemma track_keeps_every_bin_witness :
  Pandas.len (bins Example.clr) <= Pandas.len Example.dup_merged.
Proof.
  apply (track_keeps_every_bin Example.world Example.clr "matrix.cool"
           (Some ("dup.tsv", ColStr "E1")) Example.dup_merged (Some "E1")).
  vm_compute. reflexivity.
Defined.

(** X5: when no two lines of the reference track have the same chrom,
    start and end, the merged table has exactly as many rows as the bin
    table, and the check of the merge finds nothing. *)
Theorem distinct_track_lines_keep_the_row_count (W : World) (clr : Cooler)
    (cool_path track_path : string) (col : Col) (buf : Buf) (names : option (list string))
    (track_df track : DataFrame) (name : string) (track_name : option string)
    (rk : list nat) :
  sniff_for_header W track_path = Ok (buf, names) ->
  read_track W buf names col = Ok (track_df, name) ->
  traverse (Pandas.col_pos track_df) (LStr <$> coords) = Ok rk ->
  NoDup (Pandas.pick rk <$> rows track_df) ->
  track_phase W clr cool_path (Some (track_path, col)) = Ok (track, track_name) ->
  Pandas.len track = Pandas.len (bins clr) /\
  bool_decide (Pandas.len track > Pandas.len (bins clr)) = false.
Proof.
  intros Hsniff Hread Hrk Hnd. unfold track_phase.
  rewrite Hsniff, Ok_bind, Hread, Ok_bind. intros Ht.
  apply bind_Ok in Ht as (m & Hm & Ht). apply bind_Ok in Ht as (u & _ & Ht).
  injection Ht as <- <-.
  apply merge_left_Ok in Hm as (lk & rk' & _ & Hrk' & Hrows).
  assert (rk' = rk) as -> by congruence.
  assert (Pandas.len m = Pandas.len (bins clr)) as Hlen.
  { unfold Pandas.len, Py.len. rewrite Hrows. f_equal.
    apply length_bind_eq. intros lrow. by apply length_join_row_NoDup. }
  split; [done|]. apply bool_decide_eq_false_2. lia.
Qed.

Lemma distinct_track_lines_keep_the_row_count_witness :
  exists track,
    track_phase Example.world Example.clr "matrix.cool" (Some ("track.tsv", ColStr "E1"))
      = Ok (track, Some "E1") /\
    Pandas.len track = Pandas.len (bins Example.clr).
Proof.
  destruct (track_phase Example.world Example.clr "matrix.cool"
              (Some ("track.tsv", ColStr "E1"))) as [[track tn]|e] eqn:E;
    [|vm_compute in E; discriminate].
  assert (tn = Some "E1") as -> by (vm_compute in E; congruence).
  destruct (read_track Example.world Example.track_tsv (Some Example.track_header)
              (ColStr "E1")) as [[track_df name]|e] eqn:Er; [|vm_compute in Er; discriminate].
  destruct (distinct_track_lines_keep_the_row_count Example.world Example.clr "matrix.cool"
              "track.tsv" (ColStr "E1") Example.track_tsv (Some Example.track_header)
              track_df track name (Some "E1") [0; 1; 2]%nat)
    as [Hlen _]; try assumption; try reflexivity.
  - vm_compute in Er. injection Er as <- <-. reflexivity.
  - vm_compute in Er. injection Er as <- <-. vm_compute.
    repeat (constructor; [rewrite ?elem_of_cons, ?elem_of_nil; intuition discriminate|]).
    constructor.
  - exists track. split; [reflexivity | assumption].
Defined.



(** ** The value column of a file with header *)





(** ** The chromosomes of the merged track *)

Lemma fmap_bind {A B C : Type} (f : B -> C) (g : A -> list B) (l : list A) :
  f <$> (l ≫= g) = l ≫= (fun x => f <$> g x).
Proof.
  induction l as [|x l IH]; [done|]. by rewrite !bind_cons, fmap_app, IH.
Qed.

Lemma unique_from_skip (seen ys rest : list cell) :
  (forall y, y ∈ ys -> y ∈ seen) ->
  Pandas.unique_from seen (ys ++ rest) = Pandas.unique_from seen rest.
Proof.
  induction ys as [|y ys IH]; intros Hys; [done|]. simpl.
  rewrite bool_decide_eq_true_2 by (apply Hys; left).
  apply IH. intros z Hz. apply Hys. by right.
Qed.

Lemma unique_from_copies (seen ys rest : list cell) (v : cell) :
  ys <> [] -> (forall y, y ∈ ys -> y = v) ->
  Pandas.unique_from seen (ys ++ rest) = Pandas.unique_from seen (v :: rest).
Proof.
  destruct ys as [|y ys]; [done|]. intros _ Hys.
  assert (y = v) as -> by (apply Hys; left). simpl.
  case_bool_decide.
  - apply unique_from_skip. intros z Hz.
    assert (z = v) as -> by (apply Hys; by right). done.
  - f_equal. apply unique_from_skip. intros z Hz.
    assert (z = v) as -> by (apply Hys; by right). left.
Qed.

(** A value repeated in place does not change the distinct values. *)
Lemma unique_from_bind {A : Type} (seen : list cell) (g : A -> cell) (f : A -> list cell)
    (l : list A) :
  (forall x, x ∈ l -> f x <> [] /\ forall y, y ∈ f x -> y = g x) ->
  Pandas.unique_from seen (l ≫= f) = Pandas.unique_from seen (g <$> l).
Proof.
  revert seen. induction l as [|x l IH]; intros seen Hl; [done|].
  rewrite bind_cons, fmap_cons.
  destruct (Hl x) as [Hne Hall]; [left|].
  rewrite (unique_from_copies seen (f x) _ (g x) Hne Hall). simpl.
  assert (forall z, z ∈ l -> f z <> [] /\ forall y, y ∈ f z -> y = g z) as Hl'
    by (intros z Hz; apply Hl; by right).
  case_bool_decide; [|f_equal]; by apply IH.
Qed.

Lemma join_row_prefix (lk rk extra : list nat) (rr : list (list cell)) (lrow r : list cell) :
  r ∈ Pandas.join_row lk rk extra rr lrow -> exists t, r = lrow ++ t.
Proof.
  unfold Pandas.join_row. destruct (filter _ rr) as [|m ms].
  - intros ->%list_elem_of_singleton. eauto.
  - intros (rrow & -> & _)%list_elem_of_fmap. eauto.
Qed.

Lemma join_row_nonempty (lk rk extra : list nat) (rr : list (list cell)) (lrow : list cell) :
  Pandas.join_row lk rk extra rr lrow <> [].
Proof.
  pose proof (length_join_row lk rk extra rr lrow) as Hlen.
  destruct (Pandas.join_row lk rk extra rr lrow); [simpl in Hlen; lia | done].
Qed.

Lemma field_app_l (row t : list cell) (i : nat) :
  (i < length row)%nat -> Pandas.field (row ++ t) i = Pandas.field row i.
Proof. intros Hi. unfold Pandas.field. by rewrite lookup_app_l. Qed.

Lemma suffix_x_not_chrom (s : string) : s +:+ "_x" <> "chrom".
Proof. destruct s as [|a [|b [|c [|d [|e [|f s]]]]]]; simpl; discriminate. Qed.

(** The left key column [chrom] keeps its place in the merged table. *)
Lemma merged_chrom_position (left_schema tail : list (label * dtype)) (clash : list label)
    (i : nat) (c : label * dtype) :
  LStr "chrom" ∉ clash ->
  list_find (fun c : label * dtype => c.1 = LStr "chrom") left_schema = Some (i, c) ->
  exists c',
    list_find (fun c : label * dtype => c.1 = LStr "chrom")
      ((Pandas.suffixed "_x" clash <$> left_schema) ++ tail) = Some (i, c').
Proof.
  intros Hclash Hf.
  assert (forall x : label * dtype,
            (Pandas.suffixed "_x" clash x).1 = LStr "chrom" <-> x.1 = LStr "chrom") as Hiff.
  { intros [l d]. unfold Pandas.suffixed. simpl. destruct l as [n|s]; [done|].
    case_bool_decide as Hin; [|done]. simpl. split.
    - intros [= Hs]. by apply suffix_x_not_chrom in Hs.
    - intros [= ->]. contradiction. }
  apply list_find_Some in Hf as (Hi & Hc & Hbefore).
  exists (Pandas.suffixed "_x" clash c).
  apply list_find_app_l, list_find_Some. split; [|split].
  - by rewrite list_lookup_fmap, Hi.
  - by apply Hiff.
  - intros j y Hj Hlt. rewrite list_lookup_fmap in Hj.
    destruct (left_schema !! j) as [x|] eqn:Hx; [|discriminate].
    injection Hj as <-. rewrite Hiff. by eapply Hbefore.
Qed.

Lemma traverse_col_pos_head (df : DataFrame) (l : label) (ls : list label) (ks : list nat) :
  traverse (Pandas.col_pos df) (l :: ls) = Ok ks ->
  exists i d ks', ks = i :: ks' /\ Pandas.lookup_col df l = Ok (i, d)
                  /\ traverse (Pandas.col_pos df) ls = Ok ks'.
Proof.
  simpl. intros Ht. apply bind_Ok in Ht as (i & Hi & Ht).
  apply bind_Ok in Ht as (ks' & Hks & Ht). injection Ht as <-.
  unfold Pandas.col_pos in Hi. apply bind_Ok in Hi as ([i' d] & Hl & Hi).
  injection Hi as <-. eauto 10.
Qed.

Lemma lookup_col_lt (df : DataFrame) (l : label) (i : nat) (d : dtype) :
  Pandas.lookup_col df l = Ok (i, d) -> (i < length (schema df))%nat.
Proof.
  unfold Pandas.lookup_col.
  destruct (list_find _ (schema df)) as [[j c]|] eqn:Hf; [|discriminate].
  intros [= <- <-]. apply list_find_Some in Hf as (Hj & _). by eapply lookup_lt_Some.
Qed.

(** The chromosome column of the merged table: the one of the bins, each
    value once per row its bin gives. *)
Lemma merged_chroms (left right m : DataFrame) (ls : list label) :
  rectangular left ->
  Pandas.merge_left left right (LStr "chrom" :: ls) = Ok m ->
  exists cl cm,
    Pandas.getitem left (LStr "chrom") = Ok cl /\
    Pandas.getitem m (LStr "chrom") = Ok cm /\
    Pandas.unique cm = Pandas.unique cl.
Proof.
  intros Hrect Hm. unfold Pandas.merge_left in Hm.
  apply bind_Ok in Hm as (lk & Hlk & Hm). apply bind_Ok in Hm as (rk & Hrk & Hm).
  apply traverse_col_pos_head in Hlk as (i & d & lk' & -> & Hi & _).
  pose proof (lookup_col_lt _ _ _ _ Hi) as Hlt.
  exists ((fun row => Pandas.field row i) <$> rows left),
         ((fun row => Pandas.field row i) <$> rows m).
  injection Hm as <-.
  split; [by eapply getitem_lookup_col|].
  unfold Pandas.lookup_col in Hi.
  destruct (list_find _ (schema left)) as [[i' c]|] eqn:Hf; [|discriminate].
  injection Hi as -> <-.
  match goal with
  | |- context [Pandas.suffixed "_x" ?cl <$> schema left] => set (clash := cl)
  end.
  assert (LStr "chrom" ∉ clash) as Hclash.
  { unfold clash. rewrite list_elem_of_filter, elem_of_cons. tauto. }
  match goal with
  | |- context [(Pandas.suffixed "_x" clash <$> schema left) ++ ?t] =>
      destruct (merged_chrom_position (schema left) t clash i c Hclash Hf) as [c' Hf']
  end.
  split.
  - unfold Pandas.getitem, Pandas.col_pos, Pandas.lookup_col. cbn [schema rows].
    rewrite Hf'. reflexivity.
  - unfold Pandas.unique. cbn [rows]. rewrite fmap_bind. apply unique_from_bind.
    intros lrow Hin. split.
    + intros Hnil%fmap_nil_inv. by apply join_row_nonempty in Hnil.
    + intros y (r & -> & Hr)%list_elem_of_fmap.
      apply join_row_prefix in Hr as [t ->]. apply field_app_l.
      unfold rectangular in Hrect. rewrite Forall_forall in Hrect.
      by rewrite (Hrect lrow Hin).
Qed.

Lemma getitems_chrom (df t : DataFrame) (ls : list label) :
  Pandas.getitems df (LStr "chrom" :: ls) = Ok t ->
  Pandas.getitem t (LStr "chrom") = Pandas.getitem df (LStr "chrom").
Proof.
  unfold Pandas.getitems. simpl. intros Ht.
  apply bind_Ok in Ht as (ps & Hps & Ht). injection Ht as <-.
  apply bind_Ok in Hps as ([i d] & Hi & Hps). apply bind_Ok in Hps as (ps' & _ & Hps).
  injection Hps as <-.
  rewrite (getitem_lookup_col _ _ _ _ Hi).
  unfold Pandas.getitem, Pandas.col_pos, Pandas.lookup_col. simpl.
  f_equal. by rewrite <- list_fmap_compose.
Qed.

Lemma traverse_lookup_col (df : DataFrame) (ls : list label) (ks : list nat) :
  traverse (Pandas.col_pos df) ls = Ok ks ->
  exists ps, traverse (Pandas.lookup_col df) ls = Ok ps.
Proof.
  revert ks. induction ls as [|l ls IH]; intros ks; simpl; [eauto|].
  intros Ht. apply bind_Ok in Ht as (i & Hi & Ht).
  apply bind_Ok in Ht as (ks' & Hks & _).
  unfold Pandas.col_pos in Hi. apply bind_Ok in Hi as (p & -> & _).
  destruct (IH _ Hks) as [ps ->]. simpl. eauto.
Qed.

(** X8: with a reference track and no regions file the regions are those
    of the run without reference track: the chromosomes of the merged
    table are the chromosomes of the bin table, in the same order, whether
    or not the reference track mentions them. *)
Theorem default_regions_ignore_the_reference_track (W : World) (clr : Cooler)
    (cool_path track_path : string) (col : Col) (track : DataFrame)
    (track_name : option string) (contact_type : ContactType) :
  rectangular (bins clr) ->
  track_phase W clr cool_path (Some (track_path, col)) = Ok (track, track_name) ->
  exists track0 chroms chroms0,
    track_phase W clr cool_path None = Ok (track0, None) /\
    Pandas.getitem track (LStr "chrom") = Ok chroms /\
    Pandas.getitem track0 (LStr "chrom") = Ok chroms0 /\
    Pandas.unique chroms = Pandas.unique chroms0 /\
    regions_phase W clr track None contact_type
    = regions_phase W clr track0 None contact_type.
Proof.
  intros Hrect Ht. unfold track_phase in Ht.
  apply bind_Ok in Ht as ([buf names] & _ & Ht).
  apply bind_Ok in Ht as ([track_df name] & _ & Ht).
  apply bind_Ok in Ht as (m & Hm & Ht). apply bind_Ok in Ht as (u & _ & Ht).
  injection Ht as <- <-.
  pose proof Hm as Hm'. unfold Pandas.merge_left in Hm'.
  apply bind_Ok in Hm' as (lk & Hlk & _).
  destruct (traverse_lookup_col _ _ _ Hlk) as [ps Hps].
  destruct (merged_chroms _ _ _ _ Hrect Hm) as (cl & cm & Hcl & Hcm & Hu).
  set (track0 := {| schema := zip (LStr <$> coords) (snd <$> ps);
                    rows := Pandas.pick (fst <$> ps) <$> rows (bins clr) |}).
  assert (Pandas.getitems (bins clr) (LStr <$> coords) = Ok track0) as H0.
  { unfold Pandas.getitems. by rewrite Hps. }
  exists track0, cm, cl. split.
  { unfold track_phase. by rewrite H0. }
  split; [done|].
  assert (Pandas.getitem track0 (LStr "chrom") = Ok cl) as Hc0.
  { rewrite <- Hcl. by apply (getitems_chrom _ _ [LStr "start"; LStr "end"]). }
  split; [done|]. split; [done|].
  unfold regions_phase. rewrite !default_regions_unfold, Hcm, Hc0, !Ok_bind.
  by rewrite Hu.
Qed.

(** The track of the example, which names both chromosomes of the matrix. *)
Lemma default_regions_ignore_the_reference_track_witness :
  exists track track0,
    track_phase Example.world Example.clr "matrix.cool" (Some ("dup.tsv", ColStr "E1"))
      = Ok (track, Some "E1") /\
    track_phase Example.world Example.clr "matrix.cool" None = Ok (track0, None) /\
    regions_phase Example.world Example.clr track None cis
    = regions_phase Example.world Example.clr track0 None cis.
Proof.
  destruct (default_regions_ignore_the_reference_track Example.world Example.clr
              "matrix.cool" "dup.tsv" (ColStr "E1") Example.dup_merged (Some "E1") cis)
    as (track0 & _ & _ & H0 & _ & _ & _ & Hr).
  - repeat constructor.
  - vm_compute. reflexivity.
  - exists Example.dup_merged, track0. split; [vm_compute; reflexivity|].
    split; assumption.
Defined.

(** ** The values of the merged track *)






